(** * Expo updates manifest handler

    A shallow embedding of [packages/xdl/src/start/ExpoUpdatesManifestHandler.ts]:
    the platform resolver, the manifest builder and the route guard with its
    error boundary, together with the JavaScript notions they rely on
    (truthiness, [??], [String(...)], [JSON.stringify], the insertion-ordered
    [Map], thrown values). *)

From stdpp Require Import base strings gmap list pretty.
From Stdlib Require Import ZArith Ascii String Lia.

Set Warnings "-register-all".

Local Open Scope string_scope.
Local Open Scope Z_scope.

(** ** JavaScript values *)

(** Strings are kept as UTF-8 byte strings.  Numbers are integers: the only
    number this unit creates is the literal [0]. *)
Inductive jsval : Type :=
| JUndefined
| JNull
| JBool (b : bool)
| JNum (n : Z)
| JStr (s : string)
| JArr (items : list jsval)
| JObj (props : list (string * jsval)).

(** A plain object, as the list of its own properties in enumeration order. *)
Definition jsobject : Type := list (string * jsval).

(** [o.k]: the first own property named [k], [undefined] when there is none. *)
Fixpoint js_get (o : jsobject) (k : string) : jsval :=
  match o with
  | [] => JUndefined
  | (k', v) :: rest => if String.eqb k' k then v else js_get rest k
  end.

(** ToBoolean. *)
Definition truthy (v : jsval) : bool :=
  match v with
  | JUndefined | JNull => false
  | JBool b => b
  | JNum n => negb (n =? 0)
  | JStr s => negb (String.eqb s "")
  | JArr _ | JObj _ => true
  end.

Definition nullish (v : jsval) : bool :=
  match v with
  | JUndefined | JNull => true
  | _ => false
  end.

(** The type [string | string[]] of a parsed query value or a request header;
    [undefined] is the [None] of an [option]. *)
Inductive strs : Type :=
| One (s : string)
| Many (l : list string).

Fixpoint join (sep : string) (l : list string) : string :=
  match l with
  | [] => ""
  | [s] => s
  | s :: rest => s +:+ sep +:+ join sep rest
  end.

(** ToBoolean on [string | string[] | undefined]. *)
Definition truthy_strs (v : option strs) : bool :=
  match v with
  | None => false
  | Some (One s) => negb (String.eqb s "")
  | Some (Many _) => true
  end.

(** [String(v)] on [string | string[] | undefined]. *)
Definition String_of (v : option strs) : string :=
  match v with
  | None => "undefined"
  | Some (One s) => s
  | Some (Many l) => join "," l
  end.

(** [a || b] *)
Definition or_else (a b : option strs) : option strs :=
  if truthy_strs a then a else b.

(** ** JSON.stringify *)

Definition dquote : string := String (ascii_of_N 34) EmptyString.

Definition hex_digit (n : N) : ascii :=
  ascii_of_N (if (n <? 10)%N then 48 + n else 87 + n)%N.

(** QuoteJSONString on one byte: the two-character escapes, [\u00xx] for the
    other control characters, the byte itself otherwise. *)
Definition quote_char (c : ascii) : string :=
  let n := N_of_ascii c in
  if (n =? 34)%N then "\" +:+ dquote
  else if (n =? 92)%N then "\\"
  else if (n =? 8)%N then "\b"
  else if (n =? 12)%N then "\f"
  else if (n =? 10)%N then "\n"
  else if (n =? 13)%N then "\r"
  else if (n =? 9)%N then "\t"
  else if (n <? 32)%N then
    "\u00" +:+ String (hex_digit (n / 16)) (String (hex_digit (n mod 16)) "")
  else String c "".

Fixpoint quote_body (s : string) : string :=
  match s with
  | EmptyString => ""
  | String c rest => quote_char c +:+ quote_body rest
  end.

Definition quote (s : string) : string := dquote +:+ quote_body s +:+ dquote.

(** [JSON.stringify(v)] without indentation.  [None] stands for the
    [undefined] that [JSON.stringify(undefined)] returns.  A property whose
    value is [undefined] is left out of an object; an [undefined] array element
    is written [null]. *)
Fixpoint JSON_stringify (v : jsval) : option string :=
  match v with
  | JUndefined => None
  | JNull => Some "null"
  | JBool true => Some "true"
  | JBool false => Some "false"
  | JNum n => Some (pretty n)
  | JStr s => Some (quote s)
  | JArr items =>
      Some ("[" +:+
            join "," (map (fun x => default "null" (JSON_stringify x)) items)
            +:+ "]")
  | JObj props =>
      Some ("{" +:+
            join "," (omap (fun kv => match JSON_stringify (snd kv) with
                                      | Some s => Some (quote (fst kv) +:+ ":" +:+ s)
                                      | None => None
                                      end) props)
            +:+ "}")
  end.


(** ** Thrown values and completions *)

(** What a [catch] clause can receive: an [Error] instance (with the [name]
    it inherits or owns, its [message] and its [stack]), a string,
    [undefined], [null], or any other value.  Such a value is given by the two
    things the handler does with it: what reading its [stack] yields, or
    throws, and what calling its [toString] returns, or throws (as the call
    does on a value that has no such method); [toString] returns a string when
    it returns. *)
Inductive thrown : Type :=
| ErrorObj (name message : string) (stack : jsval)
| ThrownStr (s : string)
| ThrownUndefined
| ThrownNull
| ThrownOther (stack : jsval + thrown) (text : string + thrown).

(** The completion of a call: a normal value, or a throw (for an async call,
    a rejection observed by [await]). *)
Inductive completion (A : Type) : Type :=
| Normal (a : A)
| Throw (e : thrown).
Arguments Normal {A} a.
Arguments Throw {A} e.

#[global] Instance completion_ret : MRet completion := fun A a => Normal a.
#[global] Instance completion_bind : MBind completion :=
  fun A B f m => match m with Normal a => f a | Throw e => Throw e end.

(** The run-time error raised by the engine itself. *)
Inductive TypeErrorCause : Type :=
| ReadOfNullish (prop : string) (base : jsval)
| NotAFunction (callee : string).

(** Error.prototype.toString *)
Definition error_toString (name message : string) : string :=
  if String.eqb name "" then message
  else if String.eqb message "" then name
  else name +:+ ": " +:+ message.

(** ** The regular expression [/^https?:\/\/.*?\//] *)

Fixpoint strip_prefix (p s : string) : option string :=
  match p, s with
  | EmptyString, _ => Some s
  | String a p', String b s' => if Ascii.eqb a b then strip_prefix p' s' else None
  | String _ _, EmptyString => None
  end.

(** Does a line terminator start here?  [.] refuses LF, CR, U+2028 and
    U+2029; the last two are the bytes E2 80 A8 and E2 80 A9. *)
Definition line_terminator_at (s : string) : bool :=
  match s with
  | String c rest =>
      let n := N_of_ascii c in
      if ((n =? 10) || (n =? 13))%N then true
      else if (n =? 226)%N then
        match rest with
        | String c1 (String c2 _) =>
            ((N_of_ascii c1 =? 128) &&
             ((N_of_ascii c2 =? 168) || (N_of_ascii c2 =? 169)))%N
        | _ => false
        end
      else false
  | EmptyString => false
  end.

(** [.*?\/] anchored at the start of [s]: the text up to and including the
    first [/], provided no line terminator comes before it. *)
Fixpoint lazy_to_slash (s : string) : option string :=
  match s with
  | EmptyString => None
  | String c rest =>
      if Ascii.eqb c "/" then Some "/"
      else if line_terminator_at s then None
      else String c <$> lazy_to_slash rest
  end.

(** [s.match(/^https?:\/\/.*?\//)]: [Some m] with [m] the whole match (index
    [0] of the match array), [None] for [null]. *)
Definition match_origin (s : string) : option string :=
  r1 ← strip_prefix "http" s;
  match strip_prefix "s://" r1 with
  | Some r2 => (fun t => "https://" +:+ t) <$> lazy_to_slash r2
  | None =>
      r2 ← strip_prefix "://" r1;
      (fun t => "http://" +:+ t) <$> lazy_to_slash r2
  end.

(** ** Requests and collaborators *)

(** The result of Node's [url.parse]: [pathname] ([None] for [null]) and, for
    [parse(u, true)], the parsed [query] object. *)
Record Url : Type := {
  pathname : option string;
  query : gmap string strs
}.

(** The request: [url] and the [headers] object (names in lower case). *)
Record Request : Type := {
  req_url : option string;
  req_headers : gmap string strs
}.

(** [ProjectAssets.collectManifestAssets] as the interaction it has with the
    URL-builder callback it is given: it either finishes, or calls the
    builder on a path and goes on from the builder's completion. *)
Inductive AssetCollection : Type :=
| Collected (r : completion (list jsval))
| ResolveUrl (path : string) (k : completion string -> AssetCollection).

Fixpoint run_collection (c : AssetCollection)
    (builder : string -> completion string) : completion (list jsval) :=
  match c with
  | Collected r => r
  | ResolveUrl path k => run_collection (k (builder path)) builder
  end.

(** The modules this unit imports, the values it draws from the process
    (a fresh UUID, the current time) and the texts the engine gives to the
    errors it creates. *)
Record Env : Type := {
  parse : string -> Url;
  getConfig : string -> completion jsobject;
  resolveEntryPoint : string -> string -> jsobject -> completion string;
  stripJSExtension : string -> completion string;
  getClassicManifestResponseAsync :
    string -> string -> option strs -> completion jsobject;
  getRuntimeVersionForSDKVersion : jsval -> completion jsval;
  collectManifestAssets : string -> jsval -> AssetCollection;
  uuid_v4 : string;
  now_toISOString : string;
  developerTool : jsval;
  engine_message : TypeErrorCause -> string;
  engine_stack : string -> string -> string
}.

(** The insertion-ordered [Map]: [set] keeps the position of a key already
    there and appends a new one. *)
Fixpoint Map_set (k : string) (v : jsval) (m : list (string * jsval))
    : list (string * jsval) :=
  match m with
  | [] => [(k, v)]
  | (k', v') :: rest =>
      if String.eqb k' k then (k, v) :: rest else (k', v') :: Map_set k v rest
  end.

(** ** Effects of the handler *)

(** What the handler does to the response, to the continuation [next] and to
    the two logging sinks, in the order it does it. *)
Inductive effect : Type :=
| SetHeader (name : string) (value : jsval)
| SetStatusCode (code : Z)
| End (chunk : option string)
| Next
| LogError (projectRoot tag : string) (stack : jsval)
| LogEvent (name : string) (properties : jsval).

(** A computation with effects: the effects performed, then how it completes. *)
Record Eff (A : Type) : Type := MkEff {
  trace : list effect;
  outcome : completion A
}.
Arguments MkEff {A} trace outcome.
Arguments trace {A} e.
Arguments outcome {A} e.

#[global] Instance Eff_ret : MRet Eff := fun A a => MkEff [] (Normal a).
#[global] Instance Eff_bind : MBind Eff :=
  fun A B f m =>
    match outcome m with
    | Normal a => MkEff (trace m ++ trace (f a)) (outcome (f a))
    | Throw e => MkEff (trace m) (Throw e)
    end.

Definition emit (e : effect) : Eff unit := MkEff [e] (Normal tt).

Definition lift {A : Type} (c : completion A) : Eff A := MkEff [] c.

(** [try { body } catch (e) { handler(e) }] *)
Definition try_catch {A : Type} (body : Eff A) (handler : thrown -> Eff A) : Eff A :=
  match outcome body with
  | Normal a => body
  | Throw e => MkEff (trace body ++ trace (handler e)) (outcome (handler e))
  end.

(** [for (const x of l) { f(x) }] *)
Fixpoint for_of {A : Type} (l : list A) (f : A -> Eff unit) : Eff unit :=
  match l with
  | [] => mret tt
  | x :: rest => f x ;; for_of rest f
  end.

(** The response object, as far as the handler touches it. *)
Record Response : Type := MkResponse {
  statusCode : Z;
  res_headers : list (string * jsval);
  res_body : list (option string);
  finished : bool
}.

(** A response nobody has written to yet. *)
Definition fresh_response : Response := MkResponse 200 [] [] false.

(** [res.setHeader], [res.statusCode = c] and [res.end] on the response; the
    other effects leave it alone.  Header names are kept in lower case, as
    the handler writes them.  A second [end] writes nothing. *)
Definition apply_effect (res : Response) (e : effect) : Response :=
  match e with
  | SetHeader name value =>
      MkResponse (statusCode res) (Map_set name value (res_headers res))
                 (res_body res) (finished res)
  | SetStatusCode code =>
      MkResponse code (res_headers res) (res_body res) (finished res)
  | End chunk =>
      if finished res then res
      else MkResponse (statusCode res) (res_headers res)
                      (res_body res ++ [chunk]) true
  | Next | LogError _ _ _ | LogEvent _ _ => res
  end.

Definition run_response (res : Response) (t : list effect) : Response :=
  foldl apply_effect res t.

Definition is_next (e : effect) : bool :=
  match e with Next => true | _ => false end.

(** How many times [next()] was called. *)
Definition next_calls (t : list effect) : nat :=
  List.length (List.filter is_next t).

(** ** The handler *)

Section Handler.
Context (env : Env).

(** [new Error(message)] and the engine's [TypeError]. *)
Definition new_Error (name message : string) : thrown :=
  ErrorObj name message (JStr (engine_stack env name message)).

Definition TypeError (cause : TypeErrorCause) : thrown :=
  new_Error "TypeError" (engine_message env cause).

(** [e.stack] *)
Definition get_stack (e : thrown) : completion jsval :=
  match e with
  | ErrorObj _ _ stack => Normal stack
  | ThrownStr _ => Normal JUndefined
  | ThrownUndefined => Throw (TypeError (ReadOfNullish "stack" JUndefined))
  | ThrownNull => Throw (TypeError (ReadOfNullish "stack" JNull))
  | ThrownOther (inl stack) _ => Normal stack
  | ThrownOther (inr raised) _ => Throw raised
  end.

(** [e.toString()] *)
Definition toString (e : thrown) : completion string :=
  match e with
  | ErrorObj name message _ => Normal (error_toString name message)
  | ThrownStr s => Normal s
  | ThrownUndefined => Throw (TypeError (ReadOfNullish "toString" JUndefined))
  | ThrownNull => Throw (TypeError (ReadOfNullish "toString" JNull))
  | ThrownOther _ (inl text) => Normal text
  | ThrownOther _ (inr raised) => Throw raised
  end.

(** [req.url ? parse(req.url, true) : null] *)
Definition parsed_url (req : Request) : option Url :=
  match req_url req with
  | Some u => if String.eqb u "" then None else Some (parse env u)
  | None => None
  end.

(** [url?.query.platform] *)
Definition query_platform (req : Request) : option strs :=
  parsed_url req ≫= fun url => query url !! "platform".

Definition getPlatformFromRequest (req : Request) : completion string :=
  let platform :=
    or_else (query_platform req) (req_headers req !! "expo-platform") in
  if negb (truthy_strs platform) then
    Throw (new_Error "Error" "Must specify expo-platform header or query parameter")
  else Normal (String_of platform).

(** Lines 54-58: [exp.runtimeVersion ?? (exp.sdkVersion ?
    getRuntimeVersionForSDKVersion(exp.sdkVersion) : null)]. *)
Definition runtimeVersionOf (exp : jsobject) : completion jsval :=
  let explicit := js_get exp "runtimeVersion" in
  if nullish explicit then
    if truthy (js_get exp "sdkVersion") then
      getRuntimeVersionForSDKVersion env (js_get exp "sdkVersion")
    else Normal JNull
  else Normal explicit.

(** Line 65, the URL builder handed to the asset collector:
    [path => bundleUrl.match(/^https?:\/\/.*?\//)[0] + 'assets/' + path]. *)
Definition assetUrl (bundleUrl : jsval) (path : string) : completion string :=
  match bundleUrl with
  | JStr s =>
      match match_origin s with
      | Some origin => Normal (origin +:+ "assets/" +:+ path)
      | None => Throw (TypeError (ReadOfNullish "0" JNull))
      end
  | JUndefined | JNull => Throw (TypeError (ReadOfNullish "match" bundleUrl))
  | _ => Throw (TypeError (NotAFunction "bundleUrl.match"))
  end.

(** The four [headers.set] calls of lines 34-38. *)
Definition fixed_headers : list (string * jsval) :=
  Map_set "content-type" (JStr "application/json")
    (Map_set "cache-control" (JStr "private, max-age=0")
      (Map_set "expo-sfv-version" (JNum 0)
        (Map_set "expo-protocol-version" (JNum 0) []))).

(** The object literal of lines 68-82. *)
Definition expoUpdatesManifest (mainModuleName : string)
    (runtimeVersion bundleUrl : jsval) (assets : list jsval)
    (classicExpProjectConfig : jsobject) : jsobject :=
  [ ("id", JStr (uuid_v4 env));
    ("createdAt", JStr (now_toISOString env));
    ("runtimeVersion", runtimeVersion);
    ("launchAsset",
      JObj [ ("key", JStr mainModuleName);
             ("contentType", JStr "application/javascript");
             ("url", bundleUrl) ]);
    ("assets", JArr assets);
    ("metadata", JObj []);
    ("extra", JObj [ ("expoGoConfig", JObj classicExpProjectConfig) ]) ].

Definition getManifestResponseAsync (projectRoot : string) (req : Request)
    : completion (jsobject * list (string * jsval)) :=
  let headers := fixed_headers in
  platform ← getPlatformFromRequest req;
  let host := req_headers req !! "host" in
  projectConfig ← getConfig env projectRoot;
  entryPoint ← resolveEntryPoint env projectRoot platform projectConfig;
  mainModuleName ← stripJSExtension env entryPoint;
  classicExpProjectConfig ←
    getClassicManifestResponseAsync env projectRoot platform host;
  runtimeVersion ← runtimeVersionOf classicExpProjectConfig;
  let bundleUrl := js_get classicExpProjectConfig "bundleUrl" in
  assets ← run_collection
             (collectManifestAssets env projectRoot (js_get projectConfig "exp"))
             (assetUrl bundleUrl);
  let body :=
    expoUpdatesManifest mainModuleName runtimeVersion bundleUrl assets
                        classicExpProjectConfig in
  mret (body, headers).

(** The guard of line 97: [!req.url || parse(req.url).pathname !==
    '/update-manifest-experimental']. *)
Definition unmatched (req : Request) : bool :=
  match req_url req with
  | None => true
  | Some u =>
      if String.eqb u "" then true
      else match pathname (parse env u) with
           | Some p => negb (String.eqb p "/update-manifest-experimental")
           | None => true
           end
  end.

(** The handler on a response, a serializer and sinks whose calls all
    return; [getManifestHandler_in] below lets them throw. *)
Definition getManifestHandler (projectRoot : string) (req : Request) : Eff unit :=
  if unmatched req then emit Next
  else
    try_catch
      ('(body, headers) ← lift (getManifestResponseAsync projectRoot req);
       for_of headers (fun '(headerName, headerValue) =>
                         emit (SetHeader headerName headerValue)) ;;
       emit (End (JSON_stringify (JObj body))) ;;
       emit (LogEvent "Serve Expo Updates Manifest"
               (JObj [ ("projectRoot", JStr projectRoot);
                       ("developerTool", developerTool env);
                       ("runtimeVersion", js_get body "runtimeVersion") ])))
      (fun e =>
         stack ← lift (get_stack e);
         emit (LogError projectRoot "expo" stack) ;;
         emit (SetStatusCode 520) ;;
         text ← lift (toString e);
         emit (End (JSON_stringify (JObj [ ("error", JStr text) ])))).

End Handler.

(** ** The handler when its calls can throw *)

(** How the calls of one run complete: the calls on the response object
    ([setHeader], [end]), on [next] and on the two logging sinks, and
    [JSON.stringify] of the document, which throws on what the tree of a value
    does not show (a [BigInt], a cycle, a [toJSON] that throws).  One run makes
    each call at most once, so a completion per call describes any run.
    Assigning [res.statusCode] is not a call and does not throw. *)
Record Host : Type := {
  respond : effect -> completion unit;
  stringify : jsval -> completion (option string)
}.

(** The host on which every call returns. *)
Definition calm : Host :=
  {| respond := fun _ => Normal tt;
     stringify := fun v => Normal (JSON_stringify v) |}.

(** Make the call [e]: it is recorded, and completes as the host says. *)
Definition perform (host : Host) (e : effect) : Eff unit :=
  MkEff [e] (respond host e).

(** The [try] block, lines 102-121. *)
Definition manifest_try (host : Host) (env : Env) (projectRoot : string)
    (req : Request) : Eff unit :=
  '(body, headers) ← lift (getManifestResponseAsync env projectRoot req);
  for_of headers (fun '(headerName, headerValue) =>
                    perform host (SetHeader headerName headerValue)) ;;
  chunk ← lift (stringify host (JObj body));
  perform host (End chunk) ;;
  perform host (LogEvent "Serve Expo Updates Manifest"
                  (JObj [ ("projectRoot", JStr projectRoot);
                          ("developerTool", developerTool env);
                          ("runtimeVersion", js_get body "runtimeVersion") ])).

(** The [catch] clause, lines 122-131. *)
Definition manifest_catch (host : Host) (env : Env) (projectRoot : string)
    (e : thrown) : Eff unit :=
  stack ← lift (get_stack env e);
  perform host (LogError projectRoot "expo" stack) ;;
  emit (SetStatusCode 520) ;;
  text ← lift (toString env e);
  perform host (End (JSON_stringify (JObj [ ("error", JStr text) ]))).

(** Lines 91-132, with every call made through the host. *)
Definition getManifestHandler_in (host : Host) (env : Env) (projectRoot : string)
    (req : Request) : Eff unit :=
  if unmatched env req then perform host Next
  else try_catch (manifest_try host env projectRoot req)
                 (manifest_catch host env projectRoot).

(** ** A concrete environment

    Executable stand-ins for the imported modules, used to run the handler on
    concrete requests. *)

Module Sample.

(** The text before the first [c], and the text after it when there is one. *)
Fixpoint cut (c : ascii) (s : string) : string * option string :=
  match s with
  | EmptyString => (EmptyString, None)
  | String a rest =>
      if Ascii.eqb a c then (EmptyString, Some rest)
      else let '(before, after) := cut c rest in (String a before, after)
  end.

Fixpoint split (fuel : nat) (c : ascii) (s : string) : list string :=
  match fuel with
  | O => [s]
  | S fuel' =>
      match cut c s with
      | (before, Some after) => before :: split fuel' c after
      | (before, None) => [before]
      end
  end.

Definition add_pair (m : gmap string strs) (segment : string) : gmap string strs :=
  if String.eqb segment "" then m
  else
    let '(k, v) := cut "=" segment in
    let v := default EmptyString v in
    match m !! k with
    | None => <[k := One v]> m
    | Some (One x) => <[k := Many [x; v]]> m
    | Some (Many l) => <[k := Many (l ++ [v])]> m
    end.

(** [querystring.parse] on text without percent escapes or [+]. *)
Definition parse_query (q : string) : gmap string strs :=
  foldl add_pair ∅ (split (String.length q) "&" q).

(** Node's [url.parse] on an origin-form request target
    ([/path?query#hash]) made of characters it neither escapes nor
    rewrites. *)
Definition parse_target (u : string) : Url :=
  let '(before_hash, _) := cut "#" u in
  let '(path, search) := cut "?" before_hash in
  {| pathname := if String.eqb path "" then None else Some path;
     query := parse_query (default EmptyString search) |}.

(** [UrlUtils.stripJSExtension]: drop a final [.js]. *)
Fixpoint strip_js (s : string) : string :=
  match s with
  | EmptyString => EmptyString
  | String c rest => if String.eqb s ".js" then EmptyString
                     else String c (strip_js rest)
  end.

(** A collector that asks the builder for the URL of each path in turn and
    returns one descriptor per path; a failure of the builder is passed
    on. *)
Fixpoint collect_paths (paths : list string) (acc : list jsval) : AssetCollection :=
  match paths with
  | [] => Collected (Normal acc)
  | p :: rest =>
      ResolveUrl p (fun r =>
        match r with
        | Normal u => collect_paths rest (acc ++ [JObj [("url", JStr u)]])
        | Throw e => Collected (Throw e)
        end)
  end.

(** The classic manifest of a project served on the local network. *)
Definition classic_exp : jsobject :=
  [ ("name", JStr "app");
    ("sdkVersion", JStr "45.0.0");
    ("bundleUrl", JStr "http://127.0.0.1:19000/index.bundle?platform=ios") ].

(** An environment in which the collaborators other than the collector
    succeed; [exp] is the classic manifest. *)
Definition env_with (exp : jsobject) (collector : AssetCollection) : Env :=
  {| parse := parse_target;
     getConfig := fun _ => Normal [("exp", JObj [("name", JStr "app")])];
     resolveEntryPoint := fun _ _ _ => Normal "index.js";
     stripJSExtension := fun s => Normal (strip_js s);
     getClassicManifestResponseAsync := fun _ _ _ => Normal exp;
     getRuntimeVersionForSDKVersion := fun v =>
       match v with
       | JStr s => Normal (JStr ("exposdk:" +:+ s))
       | _ => Normal (JStr "exposdk:")
       end;
     collectManifestAssets := fun _ _ => collector;
     uuid_v4 := "1b9d6bcd-bbfd-4b2d-9b5d-ab8dfbbd4bed";
     now_toISOString := "2021-03-01T12:00:00.000Z";
     developerTool := JStr "expo-cli";
     engine_message := fun c =>
       match c with
       | ReadOfNullish prop JNull =>
           "Cannot read property '" +:+ prop +:+ "' of null"
       | ReadOfNullish prop _ =>
           "Cannot read property '" +:+ prop +:+ "' of undefined"
       | NotAFunction callee => callee +:+ " is not a function"
       end;
     engine_stack := fun name message =>
       error_toString name message +:+ String (ascii_of_N 10) "    at <anonymous>" |}.

Definition env : Env := env_with classic_exp (collect_paths ["icon.png"] []).

Definition request (u : string) (hs : list (string * strs)) : Request :=
  {| req_url := Some u; req_headers := list_to_map hs |}.

(** The environment in which loading the project configuration throws
    [e]. *)
Definition env_failing (e : thrown) : Env :=
  {| parse := parse_target;
     getConfig := fun _ => Throw e;
     resolveEntryPoint := resolveEntryPoint env;
     stripJSExtension := stripJSExtension env;
     getClassicManifestResponseAsync := getClassicManifestResponseAsync env;
     getRuntimeVersionForSDKVersion := getRuntimeVersionForSDKVersion env;
     collectManifestAssets := collectManifestAssets env;
     uuid_v4 := uuid_v4 env;
     now_toISOString := now_toISOString env;
     developerTool := developerTool env;
     engine_message := engine_message env;
     engine_stack := engine_stack env |}.


(** The request for the manifest route, for iOS. *)
Definition ios_request : Request :=
  request "/update-manifest-experimental?platform=ios" [].

(** A response whose header block has already been sent: [setHeader]
    throws. *)
Definition headers_sent : Host :=
  {| respond := fun e =>
       match e with
       | SetHeader _ _ =>
           Throw (ErrorObj "Error"
                    "Cannot set headers after they are sent to the client"
                    JUndefined)
       | _ => Normal tt
       end;
     stringify := fun v => Normal (JSON_stringify v) |}.

(** An analytics sink that throws. *)
Definition analytics_down : Host :=
  {| respond := fun e =>
       match e with
       | LogEvent _ _ => Throw (ErrorObj "Error" "analytics is down" JUndefined)
       | _ => Normal tt
       end;
     stringify := fun v => Normal (JSON_stringify v) |}.

(** A serializer that meets a [BigInt] in the document. *)
Definition unserializable : Host :=
  {| respond := fun _ => Normal tt;
     stringify := fun _ =>
       Throw (ErrorObj "TypeError" "Do not know how to serialize a BigInt"
                       JUndefined) |}.

(** A thrown object without a prototype, as [Object.create(null)] makes:
    reading [stack] gives [undefined], calling [toString] throws. *)
Definition bare_object : thrown :=
  ThrownOther (inl JUndefined)
              (inr (ErrorObj "TypeError" "e.toString is not a function" JUndefined)).

End Sample.


(** ** Notions used by the statements *)

(** The [setHeader] calls of a trace, in order. *)
Definition header_writes (t : list effect) : list (string * jsval) :=
  omap (fun e => match e with SetHeader n v => Some (n, v) | _ => None end) t.

(** The chunks handed to [res.end], in order. *)
Definition bodies (t : list effect) : list (option string) :=
  omap (fun e => match e with End c => Some c | _ => None end) t.

(** The status codes assigned, in order. *)
Definition status_writes (t : list effect) : list Z :=
  omap (fun e => match e with SetStatusCode c => Some c | _ => None end) t.

(** The request is for the manifest route: it has a non-empty URL whose
    pathname is the route's. *)
Definition matched (env : Env) (req : Request) : Prop :=
  exists u, req_url req = Some u /\ u <> EmptyString /\
            pathname (parse env u) = Some "/update-manifest-experimental".

(** [null] or [undefined] was thrown. *)
Definition thrown_nullish (e : thrown) : bool :=
  match e with
  | ThrownUndefined | ThrownNull => true
  | _ => false
  end.

(** The body of a successful response and the body of a failed one. *)
Definition success_body (body : jsobject) : option string :=
  JSON_stringify (JObj body).

Definition error_body (text : string) : option string :=
  JSON_stringify (JObj [("error", JStr text)]).

(** Steps (a) to (e) of the builder completed normally, with these values. *)
Definition upstream_ok (env : Env) (projectRoot : string) (req : Request)
    (platform : string) (projectConfig : jsobject) (mainModuleName : string)
    (exp : jsobject) (runtimeVersion : jsval) : Prop :=
  getPlatformFromRequest env req = Normal platform /\
  getConfig env projectRoot = Normal projectConfig /\
  (exists entryPoint,
      resolveEntryPoint env projectRoot platform projectConfig = Normal entryPoint /\
      stripJSExtension env entryPoint = Normal mainModuleName) /\
  getClassicManifestResponseAsync env projectRoot platform
    (req_headers req !! "host") = Normal exp /\
  runtimeVersionOf env exp = Normal runtimeVersion.

(** [v.k] for a value that may be an object. *)
Definition js_prop (v : jsval) (k : string) : jsval :=
  match v with
  | JObj o => js_get o k
  | _ => JUndefined
  end.



(** The reading of "the query parameter wins" under which a parameter counts
    as present whatever its value. *)
Definition query_wins_whenever_present (env : Env) (req : Request) : Prop :=
  forall q h,
    query_platform env req = Some q ->
    req_headers req !! "expo-platform" = Some h ->
    getPlatformFromRequest env req = Normal (String_of (Some q)).


(** The message of the error thrown by [getPlatformFromRequest]. *)
Definition missing_platform_message : string :=
  "Must specify expo-platform header or query parameter".

(** The runtime-version policy read with "present" as "is a property of the
    classic manifest" and "absent" as "is not a property of the document". *)
Definition runtime_version_as_stated (env : Env) (exp body : jsobject) : Prop :=
  (js_get exp "runtimeVersion" <> JUndefined ->
   js_get body "runtimeVersion" = js_get exp "runtimeVersion") /\
  (js_get exp "runtimeVersion" = JUndefined ->
   js_get exp "sdkVersion" <> JUndefined ->
   getRuntimeVersionForSDKVersion env (js_get exp "sdkVersion")
     = Normal (js_get body "runtimeVersion")) /\
  (js_get exp "runtimeVersion" = JUndefined ->
   js_get exp "sdkVersion" = JUndefined ->
   ~ In "runtimeVersion" (map fst body)).

(** No [/] occurs in [s]. *)
Fixpoint no_slash (s : string) : bool :=
  match s with
  | EmptyString => true
  | String c rest => negb (Ascii.eqb c "/") && no_slash rest
  end.


(** Some step of the manifest construction throws [e], the steps before it
    having completed normally; the steps are taken in the order of the
    source. *)
Inductive fails_with (env : Env) (root : string) (req : Request) (e : thrown)
    : Prop :=
| fails_platform :
    getPlatformFromRequest env req = Throw e -> fails_with env root req e
| fails_config platform :
    getPlatformFromRequest env req = Normal platform ->
    getConfig env root = Throw e -> fails_with env root req e
| fails_entryPoint platform config :
    getPlatformFromRequest env req = Normal platform ->
    getConfig env root = Normal config ->
    resolveEntryPoint env root platform config = Throw e ->
    fails_with env root req e
| fails_strip platform config entryPoint :
    getPlatformFromRequest env req = Normal platform ->
    getConfig env root = Normal config ->
    resolveEntryPoint env root platform config = Normal entryPoint ->
    stripJSExtension env entryPoint = Throw e ->
    fails_with env root req e
| fails_classic platform config entryPoint main :
    getPlatformFromRequest env req = Normal platform ->
    getConfig env root = Normal config ->
    resolveEntryPoint env root platform config = Normal entryPoint ->
    stripJSExtension env entryPoint = Normal main ->
    getClassicManifestResponseAsync env root platform (req_headers req !! "host")
      = Throw e ->
    fails_with env root req e
| fails_runtimeVersion platform config entryPoint main exp :
    getPlatformFromRequest env req = Normal platform ->
    getConfig env root = Normal config ->
    resolveEntryPoint env root platform config = Normal entryPoint ->
    stripJSExtension env entryPoint = Normal main ->
    getClassicManifestResponseAsync env root platform (req_headers req !! "host")
      = Normal exp ->
    runtimeVersionOf env exp = Throw e ->
    fails_with env root req e
| fails_assets platform config main exp rv :
    upstream_ok env root req platform config main exp rv ->
    run_collection (collectManifestAssets env root (js_get config "exp"))
                   (assetUrl env (js_get exp "bundleUrl")) = Throw e ->
    fails_with env root req e.

(** The handler hands exactly one chunk to [res.end]. *)
Definition exactly_one_body (env : Env) (root : string) (req : Request) : Prop :=
  exists chunk, bodies (trace (getManifestHandler env root req)) = [chunk].

(** Whatever is thrown during the construction, the handler completes
    normally, having set status 520 and written [{error: text}] with [text]
    the non-empty string form of the thrown value. *)
Definition failure_is_reported (env : Env) (root : string) (req : Request)
    : Prop :=
  forall e,
    fails_with env root req e ->
    outcome (getManifestHandler env root req) = Normal tt /\
    status_writes (trace (getManifestHandler env root req)) = [520] /\
    exists text,
      toString env e = Normal text /\ text <> EmptyString /\
      bodies (trace (getManifestHandler env root req)) = [error_body text].

(** The thrown value has an empty string form: the empty string itself, an
    [Error] whose [name] and [message] are both empty, or another value whose
    [toString] returns the empty string (an empty array, say). *)
Definition blank_thrown (e : thrown) : bool :=
  match e with
  | ErrorObj name message _ => String.eqb name "" && String.eqb message ""
  | ThrownStr s => String.eqb s ""
  | ThrownUndefined | ThrownNull => false
  | ThrownOther _ (inl text) => String.eqb text ""
  | ThrownOther _ (inr _) => false
  end.

(** The analytics events of a trace, in order. *)
Definition log_events (t : list effect) : list (string * jsval) :=
  omap (fun e => match e with LogEvent n props => Some (n, props) | _ => None end) t.

(** The error-log calls of a trace, in order. *)
Definition log_errors (t : list effect) : list (string * string * jsval) :=
  omap (fun e => match e with
                 | LogError root tag stack => Some (root, tag, stack)
                 | _ => None
                 end) t.

(** The analytics event of a served manifest. *)
Definition served_event (env : Env) (root : string) (body : jsobject)
    : string * jsval :=
  ("Serve Expo Updates Manifest",
   JObj [ ("projectRoot", JStr root);
          ("developerTool", developerTool env);
          ("runtimeVersion", js_get body "runtimeVersion") ]).

(** ** The pieces of the handler *)

#[local] Arguments JSON_stringify : simpl never.

Ltac run_monad :=
  unfold mbind, mret, completion_bind, completion_ret, Eff_bind, Eff_ret,
         emit, lift, try_catch in *; cbn [trace outcome] in *.

Lemma upstream_ok_builder env root req platform config main exp rv :
  upstream_ok env root req platform config main exp rv ->
  getManifestResponseAsync env root req =
    match run_collection (collectManifestAssets env root (js_get config "exp"))
                         (assetUrl env (js_get exp "bundleUrl")) with
    | Normal assets =>
        Normal (expoUpdatesManifest env main rv (js_get exp "bundleUrl") assets exp,
                fixed_headers)
    | Throw e => Throw e
    end.
Proof.
  intros (Hp & Hc & (entry & He & Hs) & Hx & Hr).
  unfold getManifestResponseAsync. run_monad.
  rewrite Hp, Hc, He, Hs, Hx, Hr. reflexivity.
Qed.

Lemma builder_normal_inv env root req body hs :
  getManifestResponseAsync env root req = Normal (body, hs) ->
  exists platform config main exp rv assets,
    upstream_ok env root req platform config main exp rv /\
    run_collection (collectManifestAssets env root (js_get config "exp"))
                   (assetUrl env (js_get exp "bundleUrl")) = Normal assets /\
    body = expoUpdatesManifest env main rv (js_get exp "bundleUrl") assets exp /\
    hs = fixed_headers.
Proof.
  unfold getManifestResponseAsync. run_monad.
  destruct (getPlatformFromRequest env req) as [platform|] eqn:Hp; [|discriminate].
  destruct (getConfig env root) as [config|] eqn:Hc; [|discriminate].
  destruct (resolveEntryPoint env root platform config) as [entry|] eqn:He;
    [|discriminate].
  destruct (stripJSExtension env entry) as [main|] eqn:Hs; [|discriminate].
  destruct (getClassicManifestResponseAsync env root platform _) as [exp|] eqn:Hx;
    [|discriminate].
  destruct (runtimeVersionOf env exp) as [rv|] eqn:Hr; [|discriminate].
  destruct (run_collection _ _) as [assets|] eqn:Ha; [|discriminate].
  intros [= <- <-].
  exists platform, config, main, exp, rv, assets.
  repeat split; eauto.
Qed.

Lemma unmatched_false env req : unmatched env req = false <-> matched env req.
Proof.
  unfold unmatched, matched. split.
  - destruct (req_url req) as [u|]; [|discriminate].
    destruct (String.eqb_spec u "") as [->|Hne]; [discriminate|].
    destruct (pathname (parse env u)) as [p|] eqn:Hp; [|discriminate].
    destruct (String.eqb_spec p "/update-manifest-experimental") as [->|];
      [|discriminate].
    intros _. exists u. auto.
  - intros (u & -> & Hne & ->).
    destruct (String.eqb_spec u "") as [->|_]; [contradiction|]. reflexivity.
Qed.

Lemma for_of_set_headers (hs : list (string * jsval)) :
  for_of hs (fun '(headerName, headerValue) => emit (SetHeader headerName headerValue))
  = MkEff (map (fun kv => SetHeader (fst kv) (snd kv)) hs) (Normal tt).
Proof.
  induction hs as [|[n v] hs IH]; [reflexivity|].
  cbn [for_of]. rewrite IH. reflexivity.
Qed.

Lemma header_writes_set_headers (hs : list (string * jsval)) (rest : list effect) :
  header_writes (map (fun kv => SetHeader (fst kv) (snd kv)) hs ++ rest)
  = (hs ++ header_writes rest)%list.
Proof.
  induction hs as [|[n v] hs IH]; [reflexivity|].
  cbn. unfold header_writes in IH. cbn in IH. rewrite IH. reflexivity.
Qed.

Lemma bodies_set_headers (hs : list (string * jsval)) (rest : list effect) :
  bodies (map (fun kv => SetHeader (fst kv) (snd kv)) hs ++ rest) = bodies rest.
Proof.
  induction hs as [|[n v] hs IH]; [reflexivity|]. exact IH.
Qed.

(** The success path: the headers in order, the body, the analytics event. *)
Lemma handler_on_success env root req body hs :
  unmatched env req = false ->
  getManifestResponseAsync env root req = Normal (body, hs) ->
  getManifestHandler env root req =
    MkEff (map (fun kv => SetHeader (fst kv) (snd kv)) hs ++
           [ End (success_body body);
             LogEvent "Serve Expo Updates Manifest"
               (JObj [ ("projectRoot", JStr root);
                       ("developerTool", developerTool env);
                       ("runtimeVersion", js_get body "runtimeVersion") ]) ])
          (Normal tt).
Proof.
  intros Hu Hb. unfold getManifestHandler. rewrite Hu, Hb.
  run_monad. rewrite for_of_set_headers. reflexivity.
Qed.


(** The failure path when [null] or [undefined] was thrown: reading [e.stack]
    throws inside the [catch] clause, before anything is written. *)
Lemma handler_on_nullish_failure env root req e :
  unmatched env req = false ->
  getManifestResponseAsync env root req = Throw e ->
  thrown_nullish e = true ->
  getManifestHandler env root req =
    MkEff [] (Throw (TypeError env (ReadOfNullish "stack"
                                      (if e is ThrownNull then JNull else JUndefined)))).
Proof.
  intros Hu Hb Hn. unfold getManifestHandler. rewrite Hu, Hb.
  destruct e; try discriminate; reflexivity.
Qed.

(** ** The route guard *)

(** C3.  A request without a URL, or whose pathname is not exactly
    [/update-manifest-experimental], is passed on: the handler performs the
    single effect [next()], completes normally, and whatever the response
    was before, it is the same afterwards (no status, header or body is
    written). *)
Theorem unmatched_request_passes_through env root req res :
  (forall u, req_url req = Some u ->
             pathname (parse env u) <> Some "/update-manifest-experimental") ->
  trace (getManifestHandler env root req) = [Next] /\
  outcome (getManifestHandler env root req) = Normal tt /\
  run_response res (trace (getManifestHandler env root req)) = res /\
  header_writes (trace (getManifestHandler env root req)) = [] /\
  status_writes (trace (getManifestHandler env root req)) = [] /\
  bodies (trace (getManifestHandler env root req)) = [] /\
  next_calls (trace (getManifestHandler env root req)) = 1%nat.
Proof.
  intros H.
  assert (Hu : unmatched env req = true).
  { unfold unmatched. destruct (req_url req) as [u|]; [|reflexivity].
    specialize (H u eq_refl).
    destruct (String.eqb u ""); [reflexivity|].
    destruct (pathname (parse env u)) as [p|]; [|reflexivity].
    destruct (String.eqb_spec p "/update-manifest-experimental") as [->|];
      [contradiction|reflexivity]. }
  unfold getManifestHandler. rewrite Hu. cbn. destruct res; auto 10.
Qed.

Lemma unmatched_request_passes_through_witness :
  trace (getManifestHandler Sample.env "/app"
           (Sample.request "/index.exp?platform=ios" [])) = [Next] /\
  run_response fresh_response
    (trace (getManifestHandler Sample.env "/app"
              (Sample.request "/index.exp?platform=ios" []))) = fresh_response.
Proof.
  destruct (unmatched_request_passes_through Sample.env "/app"
              (Sample.request "/index.exp?platform=ios" []) fresh_response)
    as (Ht & _ & Hr & _).
  - intros u [= <-]. vm_compute. discriminate.
  - split; [exact Ht | exact Hr].
Defined.

(** ** The response headers *)

(** C9.  On a matched request for which the builder succeeds, the headers
    mapping holds exactly the four fixed entries, in the order they were
    set, and the handler's [setHeader] calls are these four in that order; a
    response that had no headers has exactly them afterwards. *)
Theorem success_writes_the_four_headers env root req body hs :
  matched env req ->
  getManifestResponseAsync env root req = Normal (body, hs) ->
  hs = [ ("expo-protocol-version", JNum 0);
         ("expo-sfv-version", JNum 0);
         ("cache-control", JStr "private, max-age=0");
         ("content-type", JStr "application/json") ] /\
  header_writes (trace (getManifestHandler env root req)) = hs /\
  res_headers (run_response fresh_response
                 (trace (getManifestHandler env root req))) = hs.
Proof.
  intros Hm Hb. apply unmatched_false in Hm.
  rewrite (handler_on_success _ _ _ _ _ Hm Hb). cbn [trace].
  destruct (builder_normal_inv _ _ _ _ _ Hb)
    as (platform & config & main & exp & rv & assets & _ & _ & _ & ->).
  split; [reflexivity|]. split; reflexivity.
Qed.

Lemma success_writes_the_four_headers_witness :
  header_writes
    (trace (getManifestHandler Sample.env "/app"
              (Sample.request "/update-manifest-experimental?platform=ios" [])))
  = [ ("expo-protocol-version", JNum 0);
      ("expo-sfv-version", JNum 0);
      ("cache-control", JStr "private, max-age=0");
      ("content-type", JStr "application/json") ].
Proof.
  destruct (getManifestResponseAsync Sample.env "/app"
              (Sample.request "/update-manifest-experimental?platform=ios" []))
    as [[body hs]|e] eqn:Hb; [|vm_compute in Hb; discriminate].
  destruct (success_writes_the_four_headers Sample.env "/app"
              (Sample.request "/update-manifest-experimental?platform=ios" [])
              body hs) as (Hhs & Hw & _).
  - exists "/update-manifest-experimental?platform=ios".
    split; [reflexivity|]. split; [discriminate|]. vm_compute. reflexivity.
  - exact Hb.
  - rewrite Hw. exact Hhs.
Defined.

(** ** A classic manifest without a bundle URL *)

(** C10.  When the classic manifest has no [bundleUrl], reading it does not
    fail: if the collector finishes without calling the URL builder, the
    builder of the manifest completes exactly as the collector did, and when
    that is normally, it returns a body whose [launchAsset.url] is
    [undefined] (with the fixed headers). *)
Theorem missing_bundleUrl_is_not_checked
    env root req platform config main exp rv r :
  upstream_ok env root req platform config main exp rv ->
  js_get exp "bundleUrl" = JUndefined ->
  collectManifestAssets env root (js_get config "exp") = Collected r ->
  getManifestResponseAsync env root req =
    (assets ← r;
     mret (expoUpdatesManifest env main rv JUndefined assets exp, fixed_headers)) /\
  (forall assets, r = Normal assets ->
     exists body,
       getManifestResponseAsync env root req = Normal (body, fixed_headers) /\
       js_get body "launchAsset" =
         JObj [ ("key", JStr main);
                ("contentType", JStr "application/javascript");
                ("url", JUndefined) ] /\
       js_prop (js_get body "launchAsset") "url" = JUndefined).
Proof.
  intros Hup Hb Hc.
  rewrite (upstream_ok_builder _ _ _ _ _ _ _ _ Hup), Hc, Hb. cbn [run_collection].
  split.
  - destruct r; reflexivity.
  - intros assets ->. eexists. split; [reflexivity|]. split; reflexivity.
Qed.

Lemma missing_bundleUrl_is_not_checked_witness :
  exists body,
    getManifestResponseAsync
      (Sample.env_with [("sdkVersion", JStr "45.0.0")] (Collected (Normal [])))
      "/app" (Sample.request "/update-manifest-experimental?platform=ios" [])
    = Normal (body, fixed_headers) /\
    js_prop (js_get body "launchAsset") "url" = JUndefined.
Proof.
  destruct (missing_bundleUrl_is_not_checked
              (Sample.env_with [("sdkVersion", JStr "45.0.0")] (Collected (Normal [])))
              "/app" (Sample.request "/update-manifest-experimental?platform=ios" [])
              "ios" [("exp", JObj [("name", JStr "app")])] "index"
              [("sdkVersion", JStr "45.0.0")] (JStr "exposdk:45.0.0") (Normal []))
    as [_ H].
  - repeat split. exists "index.js". split; reflexivity.
  - reflexivity.
  - reflexivity.
  - destruct (H [] eq_refl) as (body & Hb & _ & Hu).
    exists body. split; [exact Hb | exact Hu].
Defined.

(** ** Platform negotiation *)

Lemma platform_of_truthy_query env req :
  truthy_strs (query_platform env req) = true ->
  getPlatformFromRequest env req = Normal (String_of (query_platform env req)).
Proof.
  intros H. unfold getPlatformFromRequest, or_else. rewrite H. cbn. rewrite H.
  reflexivity.
Qed.

Lemma platform_of_header env req :
  truthy_strs (query_platform env req) = false ->
  truthy_strs (req_headers req !! "expo-platform") = true ->
  getPlatformFromRequest env req =
    Normal (String_of (req_headers req !! "expo-platform")).
Proof.
  intros Hq Hh. unfold getPlatformFromRequest, or_else. rewrite Hq. cbn.
  rewrite Hh. reflexivity.
Qed.

Lemma platform_missing env req :
  truthy_strs (query_platform env req) = false ->
  truthy_strs (req_headers req !! "expo-platform") = false ->
  getPlatformFromRequest env req =
    Throw (new_Error env "Error" missing_platform_message).
Proof.
  intros Hq Hh. unfold getPlatformFromRequest, or_else. rewrite Hq. cbn.
  rewrite Hh. reflexivity.
Qed.


(** C5, as stated, fails: with [?platform=] (the parameter is there, its
    value is the empty string) and the header [expo-platform: android], the
    resolved platform is the header's value. *)
Lemma empty_query_platform_gives_way_to_header :
  ~ query_wins_whenever_present Sample.env
      (Sample.request "/update-manifest-experimental?platform="
                      [("expo-platform", One "android")]).
Proof.
  intros H. specialize (H (One "") (One "android") eq_refl eq_refl).
  vm_compute in H. discriminate H.
Qed.

(** C5, amended.  When the query parameter [platform] and the header
    [expo-platform] are both present and the parameter's value is truthy (it
    is not the empty string), the resolved platform is [String] of the
    parameter's value, whatever the header says. *)
Theorem truthy_query_platform_wins env req q h :
  query_platform env req = Some q ->
  req_headers req !! "expo-platform" = Some h ->
  truthy_strs (Some q) = true ->
  getPlatformFromRequest env req = Normal (String_of (Some q)).
Proof.
  intros Hq _ Ht. rewrite <- Hq in *. apply platform_of_truthy_query, Ht.
Qed.

Lemma truthy_query_platform_wins_witness :
  getPlatformFromRequest Sample.env
    (Sample.request "/update-manifest-experimental?platform=ios"
                    [("expo-platform", One "android")])
  = Normal "ios".
Proof.
  apply (truthy_query_platform_wins Sample.env
           (Sample.request "/update-manifest-experimental?platform=ios"
                           [("expo-platform", One "android")])
           (One "ios") (One "android")); reflexivity.
Defined.




(** ** The runtime version *)

Lemma builder_runtimeVersion env root req body hs :
  getManifestResponseAsync env root req = Normal (body, hs) ->
  exists platform exp,
    getPlatformFromRequest env req = Normal platform /\
    getClassicManifestResponseAsync env root platform (req_headers req !! "host")
      = Normal exp /\
    runtimeVersionOf env exp = Normal (js_get body "runtimeVersion") /\
    In "runtimeVersion" (map fst body).
Proof.
  intros Hb.
  destruct (builder_normal_inv _ _ _ _ _ Hb)
    as (platform & config & main & exp & rv & assets & Hup & _ & -> & _).
  destruct Hup as (Hp & _ & _ & Hx & Hr).
  exists platform, exp. repeat split; try assumption.
  cbn. auto.
Qed.

(** C4, as stated, fails twice.  A classic manifest whose [sdkVersion] is
    the empty string gets [null], not the mapping applied to it; and a
    classic manifest with neither field gets a [runtimeVersion] property
    whose value is [null], which [JSON.stringify] writes out. *)
Lemma runtimeVersion_is_null_not_absent :
  (exists body hs,
     getManifestResponseAsync
       (Sample.env_with [("sdkVersion", JStr EmptyString)] (Collected (Normal [])))
       "/app" (Sample.request "/update-manifest-experimental?platform=ios" [])
     = Normal (body, hs) /\
     ~ runtime_version_as_stated
         (Sample.env_with [("sdkVersion", JStr EmptyString)] (Collected (Normal [])))
         [("sdkVersion", JStr EmptyString)] body) /\
  (exists body hs,
     getManifestResponseAsync
       (Sample.env_with [] (Collected (Normal [])))
       "/app" (Sample.request "/update-manifest-experimental?platform=ios" [])
     = Normal (body, hs) /\
     js_get body "runtimeVersion" = JNull /\
     ~ runtime_version_as_stated (Sample.env_with [] (Collected (Normal []))) [] body).
Proof.
  split.
  - eexists _, _. split; [vm_compute; reflexivity|].
    intros (_ & H & _). specialize (H eq_refl). cbn in H.
    assert (JStr EmptyString <> JUndefined) as Hne by discriminate.
    specialize (H Hne). discriminate H.
  - eexists _, _. split; [vm_compute; reflexivity|]. split; [reflexivity|].
    intros (_ & _ & H). apply (H eq_refl eq_refl). cbn. auto.
Qed.

(** C4, amended.  In the document of a successful response the
    [runtimeVersion] property is: the classic manifest's [runtimeVersion]
    verbatim when that is neither [null] nor [undefined]; otherwise what the
    SDK-to-runtime mapping returns for [sdkVersion] when [sdkVersion] is
    truthy (for a string: not empty); otherwise the property is there with the
    value [null]. *)
Theorem runtime_version_policy env root req body hs :
  getManifestResponseAsync env root req = Normal (body, hs) ->
  exists platform exp,
    getPlatformFromRequest env req = Normal platform /\
    getClassicManifestResponseAsync env root platform (req_headers req !! "host")
      = Normal exp /\
    (nullish (js_get exp "runtimeVersion") = false ->
     js_get body "runtimeVersion" = js_get exp "runtimeVersion") /\
    (nullish (js_get exp "runtimeVersion") = true ->
     truthy (js_get exp "sdkVersion") = true ->
     getRuntimeVersionForSDKVersion env (js_get exp "sdkVersion")
       = Normal (js_get body "runtimeVersion")) /\
    (nullish (js_get exp "runtimeVersion") = true ->
     truthy (js_get exp "sdkVersion") = false ->
     js_get body "runtimeVersion" = JNull /\
     In "runtimeVersion" (map fst body)).
Proof.
  intros Hb.
  destruct (builder_runtimeVersion _ _ _ _ _ Hb)
    as (platform & exp & Hp & Hx & Hr & Hin).
  exists platform, exp. split; [exact Hp|]. split; [exact Hx|].
  unfold runtimeVersionOf in Hr.
  destruct (nullish (js_get exp "runtimeVersion")) eqn:Hn.
  - destruct (truthy (js_get exp "sdkVersion")) eqn:Ht.
    + repeat split; try discriminate. intros _ _. exact Hr.
    + injection Hr as Hr. repeat split; try discriminate; auto.
  - injection Hr as Hr. repeat split; try discriminate. auto.
Qed.

Lemma runtime_version_policy_witness :
  exists body hs,
    getManifestResponseAsync
      (Sample.env_with [("runtimeVersion", JStr "1.0.0"); ("sdkVersion", JStr "45.0.0")]
                       (Collected (Normal [])))
      "/app" (Sample.request "/update-manifest-experimental?platform=ios" [])
    = Normal (body, hs) /\
    js_get body "runtimeVersion" = JStr "1.0.0".
Proof.
  eexists _, _. split; [vm_compute; reflexivity|].
  destruct (runtime_version_policy
              (Sample.env_with [("runtimeVersion", JStr "1.0.0");
                                ("sdkVersion", JStr "45.0.0")]
                               (Collected (Normal [])))
              "/app" (Sample.request "/update-manifest-experimental?platform=ios" [])
              _ _ eq_refl)
    as (platform & exp & _ & Hx & H & _).
  injection Hx as <-. exact (H eq_refl).
Defined.

(** ** The URL builder *)

Lemma append_cons (c : ascii) (s t : string) :
  String c s +:+ t = String c (s +:+ t).
Proof. reflexivity. Qed.

Lemma append_assoc (a b c : string) : (a +:+ b) +:+ c = a +:+ (b +:+ c).
Proof.
  induction a as [|x a IH]; [reflexivity|].
  rewrite !append_cons, IH. reflexivity.
Qed.


Lemma lazy_to_slash_Some (s t : string) :
  lazy_to_slash s = Some t ->
  exists host rest,
    t = host +:+ "/" /\ no_slash host = true /\ s = t +:+ rest.
Proof.
  revert t. induction s as [|c s IH]; intros t H; [discriminate|].
  cbn [lazy_to_slash] in H.
  destruct (Ascii.eqb_spec c "/") as [->|Hc].
  - injection H as <-. exists EmptyString, s. repeat split.
  - destruct (line_terminator_at (String c s)); [discriminate|].
    destruct (lazy_to_slash s) as [t'|]; [|discriminate].
    injection H as <-.
    destruct (IH t' eq_refl) as (host & rest & -> & Hn & ->).
    exists (String c host), rest. repeat split.
    cbn [no_slash]. rewrite Hn.
    destruct (Ascii.eqb_spec c "/"); [contradiction|reflexivity].
Qed.








(** ** The error boundary *)

(** The builder adds no translation: it throws [e] exactly when one of its
    steps does. *)
Lemma builder_throws_iff env root req e :
  getManifestResponseAsync env root req = Throw e <-> fails_with env root req e.
Proof.
  split.
  - intros H. unfold getManifestResponseAsync in H. run_monad.
    destruct (getPlatformFromRequest env req) as [platform|e0] eqn:Hp.
    2:{ injection H as <-. apply fails_platform, Hp. }
    destruct (getConfig env root) as [config|e0] eqn:Hc.
    2:{ injection H as <-. eapply fails_config; eassumption. }
    destruct (resolveEntryPoint env root platform config) as [entry|e0] eqn:He.
    2:{ injection H as <-. eapply fails_entryPoint; eassumption. }
    destruct (stripJSExtension env entry) as [main|e0] eqn:Hs.
    2:{ injection H as <-. eapply fails_strip; eassumption. }
    destruct (getClassicManifestResponseAsync env root platform
                (req_headers req !! "host")) as [exp|e0] eqn:Hx.
    2:{ injection H as <-. eapply fails_classic; eassumption. }
    destruct (runtimeVersionOf env exp) as [rv|e0] eqn:Hr.
    2:{ injection H as <-. eapply fails_runtimeVersion; eassumption. }
    destruct (run_collection _ _) as [assets|e0] eqn:Ha; [discriminate|].
    injection H as <-.
    eapply (fails_assets _ _ _ _ platform config main exp rv); [|exact Ha].
    repeat split; eauto.
  - intros [Hp|p Hp Hc|p c Hp Hc He|p c en Hp Hc He Hs|p c en m Hp Hc He Hs Hx
            |p c en m x Hp Hc He Hs Hx Hr|p c m x rv Hup Ha].
    1-6: unfold getManifestResponseAsync; run_monad.
    + rewrite Hp. reflexivity.
    + rewrite Hp, Hc. reflexivity.
    + rewrite Hp, Hc, He. reflexivity.
    + rewrite Hp, Hc, He, Hs. reflexivity.
    + rewrite Hp, Hc, He, Hs, Hx. reflexivity.
    + rewrite Hp, Hc, He, Hs, Hx, Hr. reflexivity.
    + rewrite (upstream_ok_builder _ _ _ _ _ _ _ _ Hup), Ha. reflexivity.
Qed.

Lemma error_toString_nonempty name message :
  String.eqb name "" && String.eqb message "" = false ->
  error_toString name message <> EmptyString.
Proof.
  unfold error_toString.
  destruct (String.eqb_spec name "") as [->|Hn].
  - destruct (String.eqb_spec message "") as [->|Hm]; [discriminate|auto].
  - intros _. destruct (String.eqb_spec message "") as [->|Hm]; [exact Hn|].
    destruct name; [contradiction|discriminate].
Qed.

(** [getManifestHandler] is [getManifestHandler_in] on the calm host. *)
Lemma getManifestHandler_in_calm env root req :
  getManifestHandler_in calm env root req = getManifestHandler env root req.
Proof.
  unfold getManifestHandler_in, getManifestHandler, manifest_try, manifest_catch.
  destruct (unmatched env req); [reflexivity|].
  destruct (getManifestResponseAsync env root req) as [[body hs]|e]; reflexivity.
Qed.

Lemma omap_set_headers {B : Type} (f : effect -> option B)
    (hs : list (string * jsval)) (rest : list effect) :
  (forall n v, f (SetHeader n v) = None) ->
  omap f (map (fun kv => SetHeader (fst kv) (snd kv)) hs ++ rest)%list
  = omap f rest.
Proof.
  intros Hf. induction hs as [|[n v] hs IH]; [reflexivity|].
  cbn. rewrite Hf. exact IH.
Qed.

Lemma next_calls_set_headers (hs : list (string * jsval)) (rest : list effect) :
  next_calls (map (fun kv => SetHeader (fst kv) (snd kv)) hs ++ rest)%list
  = next_calls rest.
Proof.
  induction hs as [|[n v] hs IH]; [reflexivity|]. exact IH.
Qed.

Lemma bind_throw {A B : Type} (m : Eff A) (f : A -> Eff B) (e : thrown) :
  outcome m = Throw e -> m ≫= f = MkEff (trace m) (Throw e).
Proof. intros H. unfold mbind, Eff_bind. rewrite H. reflexivity. Qed.

Lemma bind_normal {A B : Type} (m : Eff A) (f : A -> Eff B) (a : A) :
  outcome m = Normal a ->
  m ≫= f = MkEff (trace m ++ trace (f a)) (outcome (f a)).
Proof. intros H. unfold mbind, Eff_bind. rewrite H. reflexivity. Qed.

Lemma bind_perform {B : Type} (host : Host) (e : effect) (f : unit -> Eff B) :
  perform host e ≫= f =
    match respond host e with
    | Normal u => MkEff (e :: trace (f u)) (outcome (f u))
    | Throw raised => MkEff [e] (Throw raised)
    end.
Proof.
  unfold mbind, Eff_bind, perform. cbn [trace outcome].
  destruct (respond host e); reflexivity.
Qed.

Lemma bodies_of_set_headers (hs : list (string * jsval)) :
  bodies (map (fun kv => SetHeader (fst kv) (snd kv)) hs) = [].
Proof.
  rewrite <- (app_nil_r (map _ hs)). apply bodies_set_headers.
Qed.

(** The header loop writes an initial segment of the headers, and all of
    them when it completes. *)
Lemma for_of_perform host (hs : list (string * jsval)) :
  exists k,
    trace (for_of hs (fun '(n, v) => perform host (SetHeader n v)))
      = map (fun kv => SetHeader (fst kv) (snd kv)) (take k hs) /\
    (outcome (for_of hs (fun '(n, v) => perform host (SetHeader n v))) = Normal tt /\
     take k hs = hs \/
     exists e,
       outcome (for_of hs (fun '(n, v) => perform host (SetHeader n v))) = Throw e).
Proof.
  induction hs as [|[n v] hs (k & Ht & Ho)].
  - exists 0%nat. split; [reflexivity|]. left. split; reflexivity.
  - cbn [for_of]. unfold mbind, Eff_bind.
    change (outcome (perform host (SetHeader n v)))
      with (respond host (SetHeader n v)).
    change (trace (perform host (SetHeader n v))) with [SetHeader n v].
    destruct (respond host (SetHeader n v)) as [[]|e]; cbn [trace outcome].
    + exists (S k). cbn [take map fst snd]. rewrite Ht. split; [reflexivity|].
      destruct Ho as [[Ho Hk]|[e Ho]].
      * left. rewrite Ho, Hk. split; reflexivity.
      * right. exists e. rewrite Ho. reflexivity.
    + exists 1%nat. cbn [take map fst snd]. rewrite take_0.
      split; [reflexivity|]. right. exists e. reflexivity.
Qed.

(** The ways the [try] block can run. *)
Lemma manifest_try_shape host env root req :
  (exists e,
     getManifestResponseAsync env root req = Throw e /\
     manifest_try host env root req = MkEff [] (Throw e)) \/
  (exists body,
     getManifestResponseAsync env root req = Normal (body, fixed_headers) /\
     ((exists k e,
         manifest_try host env root req =
           MkEff (map (fun kv => SetHeader (fst kv) (snd kv)) (take k fixed_headers))
                 (Throw e)) \/
      (exists chunk e,
         stringify host (JObj body) = Normal chunk /\
         respond host (End chunk) = Throw e /\
         manifest_try host env root req =
           MkEff (map (fun kv => SetHeader (fst kv) (snd kv)) fixed_headers
                  ++ [End chunk]) (Throw e)) \/
      (exists chunk,
         stringify host (JObj body) = Normal chunk /\
         respond host (End chunk) = Normal tt /\
         manifest_try host env root req =
           MkEff (map (fun kv => SetHeader (fst kv) (snd kv)) fixed_headers
                  ++ [ End chunk;
                       LogEvent (fst (served_event env root body))
                                (snd (served_event env root body)) ])
                 (respond host (LogEvent (fst (served_event env root body))
                                         (snd (served_event env root body))))))).
Proof.
  unfold manifest_try.
  destruct (getManifestResponseAsync env root req) as [[body hs]|e] eqn:Hb.
  2:{ left. exists e. split; reflexivity. }
  right.
  destruct (builder_normal_inv _ _ _ _ _ Hb)
    as (platform & config & main & exp & rv & assets & _ & _ & _ & ->).
  exists body. split; [reflexivity|].
  destruct (for_of_perform host fixed_headers) as (k & Ht & Ho).
  rewrite (bind_normal (lift (Normal (body, fixed_headers))) _
             (body, fixed_headers) eq_refl).
  cbn [lift trace app].
  destruct Ho as [[Ho Hk]|[e Ho]].
  2:{ rewrite (bind_throw _ _ e Ho), Ht. left. exists k, e. reflexivity. }
  rewrite (bind_normal _ _ tt Ho), Ht, Hk. cbn [trace outcome].
  destruct (stringify host (JObj body)) as [chunk|e] eqn:Hs.
  2:{ left. exists (List.length fixed_headers), e.
      rewrite firstn_all, app_nil_r. reflexivity. }
  right.
  rewrite (bind_normal (lift (Normal chunk)) _ chunk eq_refl).
  cbn [lift trace app]. rewrite bind_perform.
  destruct (respond host (End chunk)) as [[]|e] eqn:He; cbn [trace outcome].
  - right. exists chunk. split; [reflexivity|]. split; [exact He|]. reflexivity.
  - left. exists chunk, e. split; [reflexivity|]. split; [exact He|]. reflexivity.
Qed.

(** The ways the [catch] clause can run. *)
Lemma manifest_catch_shape host env root e :
  (exists raised,
     get_stack env e = Throw raised /\
     manifest_catch host env root e = MkEff [] (Throw raised)) \/
  (exists stack,
     get_stack env e = Normal stack /\
     ((exists raised,
         respond host (LogError root "expo" stack) = Throw raised /\
         manifest_catch host env root e =
           MkEff [LogError root "expo" stack] (Throw raised)) \/
      (respond host (LogError root "expo" stack) = Normal tt /\
       ((exists raised,
           toString env e = Throw raised /\
           manifest_catch host env root e =
             MkEff [LogError root "expo" stack; SetStatusCode 520] (Throw raised)) \/
        (exists text,
           toString env e = Normal text /\
           manifest_catch host env root e =
             MkEff [LogError root "expo" stack; SetStatusCode 520;
                    End (error_body text)]
                   (respond host (End (error_body text)))))))).
Proof.
  unfold manifest_catch. run_monad. unfold perform. cbn [trace outcome].
  destruct (get_stack env e) as [stack|raised] eqn:Hs.
  2:{ left. exists raised. split; reflexivity. }
  right. exists stack. split; [reflexivity|]. cbn [trace outcome app].
  destruct (respond host (LogError root "expo" stack)) as [[]|raised] eqn:Hl.
  2:{ left. exists raised. split; reflexivity. }
  right. split; [reflexivity|]. cbn [trace outcome app].
  destruct (toString env e) as [text|raised] eqn:Ht.
  - right. exists text. split; reflexivity.
  - left. exists raised. split; reflexivity.
Qed.

(** On the matched path the handler is the [try] block, followed by the
    [catch] clause when the block throws. *)
Lemma handler_in_matched host env root req :
  unmatched env req = false ->
  getManifestHandler_in host env root req =
    match outcome (manifest_try host env root req) with
    | Normal _ => manifest_try host env root req
    | Throw e =>
        MkEff (trace (manifest_try host env root req)
               ++ trace (manifest_catch host env root e))
              (outcome (manifest_catch host env root e))
    end.
Proof.
  intros Hu. unfold getManifestHandler_in. rewrite Hu. reflexivity.
Qed.

(** The [catch] clause when the thrown value can be inspected and the error
    log returns. *)
Lemma manifest_catch_answer host env root e stack text :
  get_stack env e = Normal stack ->
  respond host (LogError root "expo" stack) = Normal tt ->
  toString env e = Normal text ->
  manifest_catch host env root e =
    MkEff [LogError root "expo" stack; SetStatusCode 520; End (error_body text)]
          (respond host (End (error_body text))).
Proof.
  intros Hs Hl Ht. unfold manifest_catch. run_monad. unfold perform.
  cbn [trace outcome]. rewrite Hs. cbn [trace outcome app]. rewrite Hl.
  cbn [trace outcome app]. rewrite Ht. reflexivity.
Qed.

(** Three runs outside the calm host.  A thrown object without [toString]:
    the status is set, no body is written and the [TypeError] escapes. *)
Lemma bare_object_escapes_after_520 :
  getManifestHandler_in calm (Sample.env_failing Sample.bare_object) "/app"
    Sample.ios_request
  = MkEff [LogError "/app" "expo" JUndefined; SetStatusCode 520]
          (Throw (ErrorObj "TypeError" "e.toString is not a function" JUndefined)).
Proof. reflexivity. Qed.

(** A document that cannot be serialized: the four headers are written, then
    the error is answered with 520 and the error body, after a construction
    that succeeded. *)
Lemma unserializable_document_is_answered_520 :
  header_writes (trace (getManifestHandler_in Sample.unserializable Sample.env
                          "/app" Sample.ios_request)) = fixed_headers /\
  status_writes (trace (getManifestHandler_in Sample.unserializable Sample.env
                          "/app" Sample.ios_request)) = [520] /\
  bodies (trace (getManifestHandler_in Sample.unserializable Sample.env
                   "/app" Sample.ios_request))
  = [error_body "TypeError: Do not know how to serialize a BigInt"].
Proof. repeat split. Qed.

(** An analytics sink that throws after the manifest was sent: [res.end] is
    called a second time, with the error body. *)
Lemma failing_analytics_ends_twice :
  exists body hs,
    getManifestResponseAsync Sample.env "/app" Sample.ios_request
      = Normal (body, hs) /\
    bodies (trace (getManifestHandler_in Sample.analytics_down Sample.env "/app"
                     Sample.ios_request))
    = [success_body body; error_body "Error: analytics is down"].
Proof. eexists _, _. split; reflexivity. Qed.

(** C1, as stated, fails: when loading the configuration rejects with
    [undefined], reading [e.stack] throws inside the [catch] clause and no
    body at all is written; the handler itself completes with that
    [TypeError]. *)
Lemma undefined_rejection_writes_no_body :
  ~ exactly_one_body (Sample.env_failing ThrownUndefined) "/app" Sample.ios_request.
Proof.
  intros [chunk H]. vm_compute in H. discriminate H.
Qed.

(** C1, amended.  On the matched path the handler hands exactly one body to
    [res.end], never both and never neither: the serialized manifest when
    the [try] block completes, the error body when it throws.  This holds
    provided that (i) for the value [e] thrown in the [try] block, by the
    manifest construction or by [setHeader], [JSON.stringify], [res.end] or
    [Analytics.logEvent], reading [e.stack], the call of
    [ProjectUtils.logError] and [e.toString()] complete normally, and (ii)
    once the [try] block has handed the manifest to [res.end], that call and
    [Analytics.logEvent] return. *)
Theorem one_body_when_the_calls_return host env root req :
  matched env req ->
  (forall e,
     outcome (manifest_try host env root req) = Throw e ->
     exists stack text,
       get_stack env e = Normal stack /\
       respond host (LogError root "expo" stack) = Normal tt /\
       toString env e = Normal text) ->
  (bodies (trace (manifest_try host env root req)) <> [] ->
   outcome (manifest_try host env root req) = Normal tt) ->
  exists chunk,
    bodies (trace (getManifestHandler_in host env root req)) = [chunk] /\
    ((exists body hs,
        getManifestResponseAsync env root req = Normal (body, hs) /\
        stringify host (JObj body) = Normal chunk /\
        outcome (manifest_try host env root req) = Normal tt) \/
     (exists e text,
        outcome (manifest_try host env root req) = Throw e /\
        toString env e = Normal text /\
        chunk = error_body text)).
Proof.
  intros Hm Hi Hii. apply unmatched_false in Hm.
  rewrite (handler_in_matched _ _ _ _ Hm).
  assert (Hcatch : forall e prefix,
             outcome (manifest_try host env root req) = Throw e ->
             bodies prefix = [] ->
             exists chunk,
               bodies (prefix ++ trace (manifest_catch host env root e)) = [chunk] /\
               exists text, toString env e = Normal text /\ chunk = error_body text).
  { intros e prefix He Hp.
    destruct (Hi e He) as (stack & text & Hs & Hl & Ht).
    rewrite (manifest_catch_answer _ _ _ _ _ _ Hs Hl Ht). cbn [trace].
    exists (error_body text). unfold bodies in *. rewrite omap_app, Hp.
    split; [reflexivity|]. exists text. auto. }
  destruct (manifest_try_shape host env root req)
    as [(e & Hb & Ht)
       |(body & Hb & [(k & e & Ht)
                     |[(chunk & e & Hs & He & Ht)|(chunk & Hs & He & Ht)]])];
    rewrite Ht in *; cbn [trace outcome] in *.
  - destruct (Hcatch e [] eq_refl eq_refl) as (chunk & Hc & text & Htx & ->).
    exists (error_body text). split; [exact Hc|]. right. exists e, text. auto.
  - destruct (Hcatch e _ eq_refl (bodies_of_set_headers (take k fixed_headers)))
      as (chunk & Hc & text & Htx & ->).
    exists (error_body text). split; [exact Hc|]. right. exists e, text. auto.
  - exfalso. rewrite bodies_set_headers in Hii.
    assert (Hne : bodies [End chunk] <> []) by discriminate.
    specialize (Hii Hne). discriminate Hii.
  - rewrite bodies_set_headers in Hii.
    assert (Hne : bodies [ End chunk;
                           LogEvent (fst (served_event env root body))
                                    (snd (served_event env root body)) ] <> [])
      by discriminate.
    specialize (Hii Hne). rewrite Hii. cbn [trace].
    exists chunk. rewrite bodies_set_headers. split; [reflexivity|].
    left. exists body, fixed_headers. auto.
Qed.

Lemma one_body_when_the_calls_return_witness :
  bodies (trace (getManifestHandler_in Sample.headers_sent Sample.env "/app"
                   Sample.ios_request))
  = [error_body "Error: Cannot set headers after they are sent to the client"].
Proof.
  destruct (one_body_when_the_calls_return Sample.headers_sent Sample.env "/app"
              Sample.ios_request) as (chunk & Hc & Hw).
  - exists "/update-manifest-experimental?platform=ios".
    split; [reflexivity|]. split; [discriminate|]. vm_compute. reflexivity.
  - intros e He. vm_compute in He. injection He as <-.
    eexists _, _. repeat split.
  - intros H. exfalso. apply H. vm_compute. reflexivity.
  - rewrite Hc. destruct Hw as [(body & hs & _ & _ & Ho)|(e & text & He & Ht & ->)].
    + vm_compute in Ho. discriminate Ho.
    + vm_compute in He. injection He as <-. injection Ht as <-. reflexivity.
Defined.

(** C2, as stated, fails twice: a rejection with [undefined] escapes the
    handler (no status, no body), and a thrown empty string is reported with
    an empty [error] string. *)
Lemma failure_report_has_gaps :
  ~ failure_is_reported (Sample.env_failing ThrownUndefined) "/app"
      Sample.ios_request /\
  ~ failure_is_reported (Sample.env_failing (ThrownStr EmptyString)) "/app"
      Sample.ios_request.
Proof.
  split; intros H.
  - destruct (H ThrownUndefined) as (Ho & _).
    + apply (fails_config _ _ _ _ "ios"); reflexivity.
    + vm_compute in Ho. discriminate Ho.
  - destruct (H (ThrownStr EmptyString)) as (_ & _ & text & Ht & Hne & _).
    + apply (fails_config _ _ _ _ "ios"); reflexivity.
    + injection Ht as <-. apply Hne. reflexivity.
Qed.

(** C2, amended.  On the matched path, if a step of the manifest
    construction throws or rejects with a value [e] whose [stack] can be read
    and whose [toString()] returns a string, and the calls of
    [ProjectUtils.logError] and [res.end] return, then the handler logs the
    stack, sets the status code to 520, writes the JSON body whose single key
    [error] holds that string, and completes normally: nothing escapes.  The
    string is what [e.toString()] returns; it is non-empty unless the thrown
    value is the empty string, an [Error] with empty [name] and [message], or
    another value whose [toString()] returns the empty string. *)
Theorem caught_failure_answers_520 host env root req e stack text :
  matched env req ->
  fails_with env root req e ->
  get_stack env e = Normal stack ->
  toString env e = Normal text ->
  respond host (LogError root "expo" stack) = Normal tt ->
  respond host (End (error_body text)) = Normal tt ->
  getManifestHandler_in host env root req =
    MkEff [ LogError root "expo" stack; SetStatusCode 520;
            End (JSON_stringify (JObj [("error", JStr text)])) ]
          (Normal tt) /\
  (blank_thrown e = false -> text <> EmptyString).
Proof.
  intros Hm Hf Hs Ht Hl He. apply unmatched_false in Hm.
  apply builder_throws_iff in Hf. split.
  - rewrite (handler_in_matched _ _ _ _ Hm).
    assert (Htry : manifest_try host env root req = MkEff [] (Throw e)).
    { unfold manifest_try. rewrite Hf. reflexivity. }
    rewrite Htry. cbn [trace outcome].
    rewrite (manifest_catch_answer _ _ _ _ _ _ Hs Hl Ht), He. reflexivity.
  - intros Hb. destruct e as [name message st|s| | |st [tx|raised]];
      cbn in Ht, Hb; try discriminate; injection Ht as <-.
    + apply error_toString_nonempty, Hb.
    + destruct (String.eqb_spec s ""); [discriminate|assumption].
    + destruct (String.eqb_spec tx ""); [discriminate|assumption].
Qed.

Lemma caught_failure_answers_520_witness :
  getManifestHandler_in calm
    (Sample.env_failing (ThrownOther (inl JUndefined) (inl "[object Object]")))
    "/app" Sample.ios_request
  = MkEff [ LogError "/app" "expo" JUndefined; SetStatusCode 520;
            End (JSON_stringify (JObj [("error", JStr "[object Object]")])) ]
          (Normal tt).
Proof.
  destruct (caught_failure_answers_520 calm
              (Sample.env_failing (ThrownOther (inl JUndefined) (inl "[object Object]")))
              "/app" Sample.ios_request
              (ThrownOther (inl JUndefined) (inl "[object Object]"))
              JUndefined "[object Object]") as [H _].
  - exists "/update-manifest-experimental?platform=ios".
    split; [reflexivity|]. split; [discriminate|]. vm_compute. reflexivity.
  - apply (fails_config _ _ _ _ "ios"); reflexivity.
  - reflexivity.
  - reflexivity.
  - reflexivity.
  - reflexivity.
  - exact H.
Defined.

(** ** The handler as a whole *)

(** X1.  On the matched path the continuation [next] is never called,
    however the handling ends: a failure is answered (or escapes), it is
    never forwarded to the next middleware. *)
Theorem matched_request_never_calls_next env root req :
  matched env req ->
  next_calls (trace (getManifestHandler env root req)) = 0%nat.
Proof.
  intros Hm. apply unmatched_false in Hm.
  destruct (getManifestResponseAsync env root req) as [[body hs]|e] eqn:Hb.
  - rewrite (handler_on_success _ _ _ _ _ Hm Hb). cbn [trace].
    apply next_calls_set_headers.
  - unfold getManifestHandler. rewrite Hm, Hb. run_monad.
    destruct (get_stack env e); [|reflexivity].
    destruct (toString env e); reflexivity.
Qed.

Lemma matched_request_never_calls_next_witness :
  next_calls (trace (getManifestHandler (Sample.env_failing ThrownNull) "/app"
                       Sample.ios_request)) = 0%nat.
Proof.
  apply (matched_request_never_calls_next (Sample.env_failing ThrownNull) "/app"
           Sample.ios_request).
  exists "/update-manifest-experimental?platform=ios".
  split; [reflexivity|]. split; [discriminate|]. vm_compute. reflexivity.
Defined.

(** The trace of the [catch] clause, whatever it is: no header and no
    analytics event, the status code only as 520 and only after the error
    log has returned, at most one body, and that the error body. *)
Lemma manifest_catch_discipline host env root e :
  header_writes (trace (manifest_catch host env root e)) = [] /\
  log_events (trace (manifest_catch host env root e)) = [] /\
  next_calls (trace (manifest_catch host env root e)) = 0%nat /\
  (status_writes (trace (manifest_catch host env root e)) = [] /\
   bodies (trace (manifest_catch host env root e)) = [] \/
   status_writes (trace (manifest_catch host env root e)) = [520] /\
   (exists stack,
      get_stack env e = Normal stack /\
      respond host (LogError root "expo" stack) = Normal tt) /\
   (bodies (trace (manifest_catch host env root e)) = [] \/
    exists text,
      toString env e = Normal text /\
      bodies (trace (manifest_catch host env root e)) = [error_body text])).
Proof.
  destruct (manifest_catch_shape host env root e)
    as [(r & _ & ->)
       |(stack & Hs & [(r & _ & ->)
                      |(Hl & [(r & _ & ->)|(text & Ht & ->)])])];
    cbn [trace]; repeat (split; [reflexivity|]).
  - left. split; reflexivity.
  - left. split; reflexivity.
  - right. split; [reflexivity|]. split; [eauto|]. left. reflexivity.
  - right. split; [reflexivity|]. split; [eauto|]. right. eauto.
Qed.

Lemma status_writes_app (a b : list effect) :
  status_writes (a ++ b) = (status_writes a ++ status_writes b)%list.
Proof. apply omap_app. Qed.

Lemma bodies_app (a b : list effect) :
  bodies (a ++ b) = (bodies a ++ bodies b)%list.
Proof. apply omap_app. Qed.

Lemma header_writes_app (a b : list effect) :
  header_writes (a ++ b) = (header_writes a ++ header_writes b)%list.
Proof. apply omap_app. Qed.

Lemma status_writes_headers (hs : list (string * jsval)) :
  status_writes (map (fun kv => SetHeader (fst kv) (snd kv)) hs) = [].
Proof.
  rewrite <- (app_nil_r (map _ hs)). unfold status_writes.
  rewrite omap_set_headers by reflexivity. reflexivity.
Qed.

Lemma header_writes_headers (hs : list (string * jsval)) :
  header_writes (map (fun kv => SetHeader (fst kv) (snd kv)) hs) = hs.
Proof.
  rewrite <- (app_nil_r (map _ hs)), header_writes_set_headers. apply app_nil_r.
Qed.

Ltac project_trace :=
  rewrite ?status_writes_app, ?bodies_app, ?header_writes_app;
  rewrite ?status_writes_headers, ?bodies_of_set_headers, ?header_writes_headers;
  simpl.

(** X2.  Whatever the request, the collaborators and the way the calls on
    the response, the serializer and the sinks complete: the handler assigns
    the status code at most once, only as 520 and only after the error log
    has returned; the headers it writes are an initial segment of the four
    fixed headers, in their order; and it calls [res.end] at most twice, twice
    only when the manifest had been handed over and [res.end] or
    [Analytics.logEvent] then threw, the second body being the error body. *)
Theorem handler_write_discipline host env root req :
  (status_writes (trace (getManifestHandler_in host env root req)) = [] \/
   status_writes (trace (getManifestHandler_in host env root req)) = [520] /\
   exists e stack,
     outcome (manifest_try host env root req) = Throw e /\
     get_stack env e = Normal stack /\
     respond host (LogError root "expo" stack) = Normal tt) /\
  (exists rest,
     fixed_headers
     = (header_writes (trace (getManifestHandler_in host env root req)) ++ rest)%list) /\
  (bodies (trace (getManifestHandler_in host env root req)) = [] \/
   (exists chunk,
      bodies (trace (getManifestHandler_in host env root req)) = [chunk]) \/
   exists body chunk e text,
     getManifestResponseAsync env root req = Normal (body, fixed_headers) /\
     stringify host (JObj body) = Normal chunk /\
     outcome (manifest_try host env root req) = Throw e /\
     (respond host (End chunk) = Throw e \/
      respond host (LogEvent (fst (served_event env root body))
                             (snd (served_event env root body))) = Throw e) /\
     toString env e = Normal text /\
     bodies (trace (getManifestHandler_in host env root req))
     = [chunk; error_body text]).
Proof.
  destruct (unmatched env req) eqn:Hu.
  { unfold getManifestHandler_in. rewrite Hu. cbn [perform trace].
    split; [left; reflexivity|]. split; [exists fixed_headers; reflexivity|].
    left. reflexivity. }
  rewrite (handler_in_matched _ _ _ _ Hu).
  destruct (manifest_try_shape host env root req)
    as [(e & Hb & Ht)
       |(body & Hb & [(k & e & Ht)
                     |[(chunk & e & Hs & He & Ht)|(chunk & Hs & He & Ht)]])];
    rewrite Ht; cbn [trace outcome].
  - destruct (manifest_catch_discipline host env root e) as (Hh & _ & _ & Hd).
    remember (trace (manifest_catch host env root e)) as C eqn:HC. clear HC.
    project_trace. rewrite Hh.
    split; [|split; [exists fixed_headers; reflexivity|]].
    + destruct Hd as [[Hst _]|(Hst & (stack & Hg & Hl) & _)]; rewrite Hst;
        [left; reflexivity|right; split; [reflexivity|]; eauto].
    + destruct Hd as [[_ Hbd]|(_ & _ & [Hbd|(text & _ & Hbd)])]; rewrite Hbd;
        [left|left|right; left; eexists]; reflexivity.
  - destruct (manifest_catch_discipline host env root e) as (Hh & _ & _ & Hd).
    remember (trace (manifest_catch host env root e)) as C eqn:HC. clear HC.
    project_trace. rewrite Hh, app_nil_r.
    split; [|split; [exists (drop k fixed_headers); symmetry; apply take_drop|]].
    + destruct Hd as [[Hst _]|(Hst & (stack & Hg & Hl) & _)]; rewrite Hst;
        [left; reflexivity|right; split; [reflexivity|]; eauto].
    + destruct Hd as [[_ Hbd]|(_ & _ & [Hbd|(text & _ & Hbd)])]; rewrite Hbd;
        [left|left|right; left; eexists]; reflexivity.
  - destruct (manifest_catch_discipline host env root e) as (Hh & _ & _ & Hd).
    remember (trace (manifest_catch host env root e)) as C eqn:HC. clear HC.
    project_trace. rewrite Hh, ?app_nil_r.
    split; [|split; [exists []; reflexivity|]].
    + destruct Hd as [[Hst _]|(Hst & (stack & Hg & Hl) & _)]; rewrite Hst;
        [left; reflexivity|right; split; [reflexivity|]; eauto].
    + destruct Hd as [[_ Hbd]|(_ & _ & [Hbd|(text & Htx & Hbd)])]; rewrite Hbd;
        [right; left; eexists; reflexivity|right; left; eexists; reflexivity|].
      right. right. exists body, chunk, e, text. auto 10.
  - destruct (respond host (LogEvent (fst (served_event env root body))
                                     (snd (served_event env root body))))
      as [[]|e] eqn:Hev; cbn [trace].
    + project_trace. split; [left; reflexivity|].
      split; [exists []; reflexivity|].
      right. left. eexists. reflexivity.
    + destruct (manifest_catch_discipline host env root e) as (Hh & _ & _ & Hd).
      remember (trace (manifest_catch host env root e)) as C eqn:HC. clear HC.
      project_trace. rewrite Hh, ?app_nil_r.
      split; [|split; [exists []; reflexivity|]].
      * destruct Hd as [[Hst _]|(Hst & (stack & Hg & Hl) & _)]; rewrite Hst;
          [left; reflexivity|right; split; [reflexivity|]; eauto].
      * destruct Hd as [[_ Hbd]|(_ & _ & [Hbd|(text & Htx & Hbd)])]; rewrite Hbd;
          [right; left; eexists; reflexivity|right; left; eexists; reflexivity|].
        right. right. exists body, chunk, e, text. auto 10.
Qed.

(** ** The response after handling *)

(** X5.  When the manifest construction fails, the headers of the response
    are exactly what they were: the error answer sets no header, not even a
    content type.  If the failure value is [null] or [undefined], the whole
    response is what it was. *)
Theorem failure_leaves_the_headers env root req e res :
  matched env req ->
  getManifestResponseAsync env root req = Throw e ->
  header_writes (trace (getManifestHandler env root req)) = [] /\
  res_headers (run_response res (trace (getManifestHandler env root req)))
    = res_headers res /\
  (thrown_nullish e = true ->
   run_response res (trace (getManifestHandler env root req)) = res).
Proof.
  intros Hm Hb. apply unmatched_false in Hm.
  unfold getManifestHandler. rewrite Hm, Hb. run_monad.
  destruct e as [name message st|s| | |[st|raised] [tx|raised']];
    cbn; repeat split; try discriminate; try reflexivity;
    destruct (finished res); reflexivity.
Qed.

Lemma failure_leaves_the_headers_witness :
  res_headers
    (run_response (MkResponse 200 [("x-powered-by", JStr "Express")] [] false)
       (trace (getManifestHandler
                 (Sample.env_failing (ThrownStr "no config")) "/app"
                 Sample.ios_request)))
  = [("x-powered-by", JStr "Express")].
Proof.
  destruct (failure_leaves_the_headers
              (Sample.env_failing (ThrownStr "no config")) "/app"
              Sample.ios_request (ThrownStr "no config")
              (MkResponse 200 [("x-powered-by", JStr "Express")] [] false))
    as (_ & H & _).
  - exists "/update-manifest-experimental?platform=ios".
    split; [reflexivity|]. split; [discriminate|]. vm_compute. reflexivity.
  - reflexivity.
  - exact H.
Defined.

Lemma log_events_app (a b : list effect) :
  log_events (a ++ b) = (log_events a ++ log_events b)%list.
Proof. apply omap_app. Qed.

Lemma log_errors_app (a b : list effect) :
  log_errors (a ++ b) = (log_errors a ++ log_errors b)%list.
Proof. apply omap_app. Qed.

Lemma log_events_headers (hs : list (string * jsval)) :
  log_events (map (fun kv => SetHeader (fst kv) (snd kv)) hs) = [].
Proof.
  rewrite <- (app_nil_r (map _ hs)). unfold log_events.
  rewrite omap_set_headers by reflexivity. reflexivity.
Qed.

Lemma log_errors_headers (hs : list (string * jsval)) :
  log_errors (map (fun kv => SetHeader (fst kv) (snd kv)) hs) = [].
Proof.
  rewrite <- (app_nil_r (map _ hs)). unfold log_errors.
  rewrite omap_set_headers by reflexivity. reflexivity.
Qed.

Ltac project_logs :=
  rewrite ?log_events_app, ?log_errors_app;
  rewrite ?log_events_headers, ?log_errors_headers;
  simpl.

(** The [catch] clause never reports to analytics, and calls the error log
    at most once, with the stack of the value it caught. *)
Lemma manifest_catch_logs host env root e :
  log_events (trace (manifest_catch host env root e)) = [] /\
  (log_errors (trace (manifest_catch host env root e)) = [] \/
   exists stack,
     get_stack env e = Normal stack /\
     log_errors (trace (manifest_catch host env root e)) = [(root, "expo", stack)]).
Proof.
  destruct (manifest_catch_shape host env root e)
    as [(r & _ & ->)
       |(stack & Hs & [(r & _ & ->)
                      |(Hl & [(r & _ & ->)|(text & Ht & ->)])])];
    cbn [trace]; (split; [reflexivity|]);
    first [left; reflexivity | right; exists stack; split; [exact Hs|reflexivity]].
Qed.

(** X6.  Whatever the request, the collaborators and the way the calls
    complete, the two logs follow the run.  Analytics is called at most once,
    and only after the manifest has been serialized and [res.end] has
    returned; the event carries the project root, the developer tool and the
    [runtimeVersion] of that very document; a failed construction never
    reaches it.  The error log is called at most once, and only for a value
    thrown in the [try] block whose [stack] could be read, with that stack
    and the tag [expo].  When the [try] block completes, there is exactly the
    one analytics event and no error log. *)
Theorem logs_follow_the_run host env root req :
  (log_events (trace (getManifestHandler_in host env root req)) = [] \/
   exists body chunk,
     getManifestResponseAsync env root req = Normal (body, fixed_headers) /\
     stringify host (JObj body) = Normal chunk /\
     respond host (End chunk) = Normal tt /\
     log_events (trace (getManifestHandler_in host env root req))
     = [served_event env root body]) /\
  (log_errors (trace (getManifestHandler_in host env root req)) = [] \/
   exists e stack,
     outcome (manifest_try host env root req) = Throw e /\
     get_stack env e = Normal stack /\
     log_errors (trace (getManifestHandler_in host env root req))
     = [(root, "expo", stack)]) /\
  (forall done,
     unmatched env req = false ->
     outcome (manifest_try host env root req) = Normal done ->
     exists body,
       getManifestResponseAsync env root req = Normal (body, fixed_headers) /\
       log_events (trace (getManifestHandler_in host env root req))
       = [served_event env root body] /\
       log_errors (trace (getManifestHandler_in host env root req)) = []).
Proof.
  destruct (unmatched env req) eqn:Hu.
  { unfold getManifestHandler_in. rewrite Hu. cbn [perform trace].
    split; [left; reflexivity|]. split; [left; reflexivity|]. discriminate. }
  rewrite (handler_in_matched _ _ _ _ Hu).
  destruct (manifest_try_shape host env root req)
    as [(e & Hb & Ht)
       |(body & Hb & [(k & e & Ht)
                     |[(chunk & e & Hs & He & Ht)|(chunk & Hs & He & Ht)]])];
    rewrite Ht; cbn [trace outcome].
  - destruct (manifest_catch_logs host env root e) as (Hev & Her).
    remember (trace (manifest_catch host env root e)) as C eqn:HC. clear HC.
    project_logs. rewrite Hev.
    split; [left; reflexivity|]. split; [|discriminate].
    destruct Her as [Her|(stack & Hg & Her)]; rewrite Her;
      [left; reflexivity|right; eauto].
  - destruct (manifest_catch_logs host env root e) as (Hev & Her).
    remember (trace (manifest_catch host env root e)) as C eqn:HC. clear HC.
    project_logs. rewrite Hev.
    split; [left; reflexivity|]. split; [|discriminate].
    destruct Her as [Her|(stack & Hg & Her)]; rewrite Her;
      [left; reflexivity|right; eauto].
  - destruct (manifest_catch_logs host env root e) as (Hev & Her).
    remember (trace (manifest_catch host env root e)) as C eqn:HC. clear HC.
    project_logs. rewrite Hev.
    split; [left; reflexivity|]. split; [|discriminate].
    destruct Her as [Her|(stack & Hg & Her)]; rewrite Her;
      [left; reflexivity|right; eauto].
  - destruct (respond host (LogEvent (fst (served_event env root body))
                                     (snd (served_event env root body))))
      as [[]|e] eqn:Hl; cbn [trace].
    + project_logs. split; [right; exists body, chunk; auto|].
      split; [left; reflexivity|]. intros _ _ _. exists body. auto.
    + destruct (manifest_catch_logs host env root e) as (Hev & Her).
      remember (trace (manifest_catch host env root e)) as C eqn:HC. clear HC.
      project_logs. rewrite Hev.
      split; [right; exists body, chunk; auto|]. split; [|discriminate].
      destruct Her as [Her|(stack & Hg & Her)]; rewrite Her;
        [left; reflexivity|right; eauto].
Qed.

(** ** More on platform negotiation *)

(** X8.  A repeated query parameter ([?platform=a&platform=b], parsed as an
    array) always wins over the header, and the resolved platform is its
    elements joined by commas. *)
Theorem repeated_query_platform_is_joined env req l :
  query_platform env req = Some (Many l) ->
  getPlatformFromRequest env req = Normal (join "," l).
Proof.
  intros Hq. rewrite (platform_of_truthy_query env req); rewrite Hq; reflexivity.
Qed.

Lemma repeated_query_platform_is_joined_witness :
  getPlatformFromRequest Sample.env
    (Sample.request "/update-manifest-experimental?platform=ios&platform=android"
                    [("expo-platform", One "web")])
  = Normal "ios,android".
Proof.
  apply (repeated_query_platform_is_joined Sample.env
           (Sample.request
              "/update-manifest-experimental?platform=ios&platform=android"
              [("expo-platform", One "web")])
           ["ios"; "android"]).
  vm_compute. reflexivity.
Defined.

(** X9.  An empty URL string counts as no URL at all, and [parse] is never
    asked about it: the handler passes the request on, and platform
    resolution looks at the header only. *)
Theorem empty_url_is_no_url env root req :
  req_url req = None \/ req_url req = Some EmptyString ->
  getManifestHandler env root req = MkEff [Next] (Normal tt) /\
  query_platform env req = None /\
  getPlatformFromRequest env req =
    if truthy_strs (req_headers req !! "expo-platform")
    then Normal (String_of (req_headers req !! "expo-platform"))
    else Throw (new_Error env "Error" missing_platform_message).
Proof.
  intros H.
  assert (Hu : unmatched env req = true).
  { unfold unmatched. destruct H as [-> | ->]; reflexivity. }
  assert (Hq : query_platform env req = None).
  { unfold query_platform, parsed_url. destruct H as [-> | ->]; reflexivity. }
  split; [unfold getManifestHandler; rewrite Hu; reflexivity|].
  split; [exact Hq|].
  destruct (truthy_strs (req_headers req !! "expo-platform")) eqn:Hh.
  - apply platform_of_header; [rewrite Hq; reflexivity | exact Hh].
  - apply platform_missing; [rewrite Hq; reflexivity | exact Hh].
Qed.

Lemma empty_url_is_no_url_witness :
  getPlatformFromRequest Sample.env
    (Sample.request EmptyString [("expo-platform", One "android")])
  = Normal "android".
Proof.
  destruct (empty_url_is_no_url Sample.env "/app"
              (Sample.request EmptyString [("expo-platform", One "android")]))
    as (_ & _ & H).
  - right. reflexivity.
  - exact H.
Defined.

(** ** More on the URL builder *)

Lemma strip_prefix_app (p r : string) : strip_prefix p (p +:+ r) = Some r.
Proof.
  induction p as [|a p IH]; [destruct r; reflexivity|].
  rewrite append_cons. cbn [strip_prefix]. rewrite Ascii.eqb_refl. exact IH.
Qed.

(** Whether a line terminator starts at a byte of the host depends on the
    host and the [/] after it, not on what follows. *)
Lemma line_terminator_before_slash (c : ascii) (host r1 r2 : string) :
  line_terminator_at (String c (host +:+ "/" +:+ r1))
  = line_terminator_at (String c (host +:+ "/" +:+ r2)).
Proof.
  unfold line_terminator_at.
  destruct ((N_of_ascii c =? 10) || (N_of_ascii c =? 13))%N; [reflexivity|].
  destruct (N_of_ascii c =? 226)%N; [|reflexivity].
  destruct host as [|h1 [|h2 host]]; rewrite ?append_cons.
  - change (EmptyString +:+ "/" +:+ r1) with (String "/" r1).
    change (EmptyString +:+ "/" +:+ r2) with (String "/" r2).
    destruct r1, r2; reflexivity.
  - change (EmptyString +:+ "/" +:+ r1) with (String "/" r1).
    change (EmptyString +:+ "/" +:+ r2) with (String "/" r2).
    destruct (N_of_ascii h1 =? 128)%N; reflexivity.
  - reflexivity.
Qed.

Lemma lazy_to_slash_stable (s t : string) :
  lazy_to_slash s = Some t ->
  forall rest, lazy_to_slash (t +:+ rest) = Some t.
Proof.
  revert t. induction s as [|c s IH]; intros t H rest; [discriminate|].
  cbn [lazy_to_slash] in H.
  destruct (Ascii.eqb_spec c "/") as [->|Hc].
  - injection H as <-. reflexivity.
  - destruct (line_terminator_at (String c s)) eqn:Hl; [discriminate|].
    destruct (lazy_to_slash s) as [t'|] eqn:Ht; [|discriminate].
    injection H as <-.
    destruct (lazy_to_slash_Some _ _ Ht) as (host & r0 & -> & _ & ->).
    rewrite append_cons. cbn [lazy_to_slash].
    destruct (Ascii.eqb_spec c "/"); [contradiction|].
    rewrite !append_assoc in *.
    rewrite (line_terminator_before_slash c host rest r0), Hl.
    rewrite <- !append_assoc. rewrite (IH _ eq_refl rest). reflexivity.
Qed.

Lemma no_slash_never_matches (r : string) :
  no_slash r = true -> lazy_to_slash r = None.
Proof.
  induction r as [|c r IH]; [reflexivity|].
  cbn [no_slash lazy_to_slash]. intros H. apply andb_prop in H as [Hc Hr].
  destruct (Ascii.eqb c "/"); [discriminate|].
  destruct (line_terminator_at (String c r)); [reflexivity|].
  rewrite (IH Hr). reflexivity.
Qed.

Lemma append_cancel_l (a x y : string) : a +:+ x = a +:+ y -> x = y.
Proof.
  induction a as [|c a IH]; [auto|].
  rewrite !append_cons. intros [= H]. exact (IH H).
Qed.

(** X10.  The match depends on the head of the bundle URL only: if the
    regular expression matches [b] with [origin], it matches [origin]
    followed by anything with the same [origin]; so the path and the query of
    the bundle URL never change an asset URL, and the match of a match is
    itself. *)
Theorem match_origin_depends_on_the_head env b origin :
  match_origin b = Some origin ->
  (forall rest, match_origin (origin +:+ rest) = Some origin) /\
  (forall rest path,
     assetUrl env (JStr (origin +:+ rest)) path = assetUrl env (JStr b) path).
Proof.
  intros Hm.
  assert (Hs : forall rest, match_origin (origin +:+ rest) = Some origin).
  { revert Hm. unfold match_origin. run_monad.
    unfold option_bind, fmap, option_fmap, option_map.
    destruct (strip_prefix "http" b) as [r1|] eqn:H1; [|discriminate].
    destruct (strip_prefix "s://" r1) as [r2|] eqn:H2.
    - destruct (lazy_to_slash r2) as [t|] eqn:H3; [|discriminate].
      intros [= <-] rest.
      change (("https://" +:+ t) +:+ rest) with ("http" +:+ "s://" +:+ t +:+ rest).
      rewrite strip_prefix_app, strip_prefix_app.
      rewrite (lazy_to_slash_stable _ _ H3). reflexivity.
    - destruct (strip_prefix "://" r1) as [r2|] eqn:H2'; [|discriminate].
      destruct (lazy_to_slash r2) as [t|] eqn:H3; [|discriminate].
      intros [= <-] rest.
      change (("http://" +:+ t) +:+ rest) with ("http" +:+ "://" +:+ t +:+ rest).
      rewrite strip_prefix_app.
      change (strip_prefix "s://" ("://" +:+ t +:+ rest)) with (@None string).
      rewrite strip_prefix_app.
      rewrite (lazy_to_slash_stable _ _ H3). reflexivity. }
  split; [exact Hs|].
  intros rest path. unfold assetUrl. rewrite Hs, Hm. reflexivity.
Qed.

Lemma match_origin_depends_on_the_head_witness :
  assetUrl Sample.env
    (JStr ("http://127.0.0.1:19000/" +:+ "other.bundle")) "icon.png"
  = Normal "http://127.0.0.1:19000/assets/icon.png".
Proof.
  destruct (match_origin_depends_on_the_head Sample.env
              "http://127.0.0.1:19000/index.bundle?platform=ios"
              "http://127.0.0.1:19000/" eq_refl) as [_ H].
  rewrite H. reflexivity.
Defined.

(** X11.  A bundle URL with nothing but a host after the scheme, no [/]
    after [http://] or [https://] (as in [http://localhost:19000]), is not
    matched, and the URL builder throws for every path. *)
Theorem bare_host_bundleUrl_is_refused env r :
  no_slash r = true ->
  match_origin ("http://" +:+ r) = None /\
  match_origin ("https://" +:+ r) = None /\
  forall path,
    assetUrl env (JStr ("http://" +:+ r)) path
      = Throw (TypeError env (ReadOfNullish "0" JNull)) /\
    assetUrl env (JStr ("https://" +:+ r)) path
      = Throw (TypeError env (ReadOfNullish "0" JNull)).
Proof.
  intros Hr. apply no_slash_never_matches in Hr.
  assert (H1 : match_origin ("http://" +:+ r) = None).
  { unfold match_origin. run_monad. unfold option_bind, fmap, option_fmap, option_map.
    change ("http://" +:+ r) with ("http" +:+ "://" +:+ r).
    rewrite strip_prefix_app.
    change (strip_prefix "s://" ("://" +:+ r)) with (@None string).
    rewrite strip_prefix_app, Hr. reflexivity. }
  assert (H2 : match_origin ("https://" +:+ r) = None).
  { unfold match_origin. run_monad. unfold option_bind, fmap, option_fmap, option_map.
    change ("https://" +:+ r) with ("http" +:+ "s://" +:+ r).
    rewrite !strip_prefix_app, Hr. reflexivity. }
  split; [exact H1|]. split; [exact H2|].
  intros path. unfold assetUrl. rewrite H1, H2. split; reflexivity.
Qed.

Lemma bare_host_bundleUrl_is_refused_witness :
  match_origin "http://localhost:19000" = None.
Proof.
  destruct (bare_host_bundleUrl_is_refused Sample.env "localhost:19000" eq_refl)
    as [H _].
  exact H.
Defined.

(** X12.  The URL builder never maps two different paths to the same URL. *)
Theorem assetUrl_is_injective env bundleUrl path1 path2 u :
  assetUrl env bundleUrl path1 = Normal u ->
  assetUrl env bundleUrl path2 = Normal u ->
  path1 = path2.
Proof.
  unfold assetUrl. destruct bundleUrl; try discriminate.
  destruct (match_origin s) as [origin|]; [|discriminate].
  intros [= <-] [= H].
  apply append_cancel_l in H. apply append_cancel_l in H. symmetry. exact H.
Qed.

Lemma assetUrl_is_injective_witness :
  assetUrl Sample.env
    (JStr "http://127.0.0.1:19000/index.bundle?platform=ios") "icon.png"
  = Normal "http://127.0.0.1:19000/assets/icon.png" /\
  "icon.png" = "icon.png".
Proof.
  split; [reflexivity|].
  apply (assetUrl_is_injective Sample.env
           (JStr "http://127.0.0.1:19000/index.bundle?platform=ios")
           "icon.png" "icon.png" "http://127.0.0.1:19000/assets/icon.png");
    reflexivity.
Defined.



(** ** The document *)

(** X14.  The document of a successful response has exactly the seven
    properties [id], [createdAt], [runtimeVersion], [launchAsset], [assets],
    [metadata], [extra], in this order.  [metadata] is the empty object;
    [assets] is the collector's list as returned; [launchAsset] has the entry
    point without its extension as [key], the JavaScript content type, and
    the classic manifest's [bundleUrl] untouched as [url]; and
    [extra.expoGoConfig] is the whole classic manifest. *)
Theorem document_shape env root req body hs :
  getManifestResponseAsync env root req = Normal (body, hs) ->
  map fst body = [ "id"; "createdAt"; "runtimeVersion"; "launchAsset";
                   "assets"; "metadata"; "extra" ] /\
  js_get body "metadata" = JObj [] /\
  exists platform config entryPoint main exp assets,
    getPlatformFromRequest env req = Normal platform /\
    getConfig env root = Normal config /\
    resolveEntryPoint env root platform config = Normal entryPoint /\
    stripJSExtension env entryPoint = Normal main /\
    getClassicManifestResponseAsync env root platform (req_headers req !! "host")
      = Normal exp /\
    run_collection (collectManifestAssets env root (js_get config "exp"))
                   (assetUrl env (js_get exp "bundleUrl")) = Normal assets /\
    js_get body "assets" = JArr assets /\
    js_get body "launchAsset" =
      JObj [ ("key", JStr main);
             ("contentType", JStr "application/javascript");
             ("url", js_get exp "bundleUrl") ] /\
    js_get body "extra" = JObj [ ("expoGoConfig", JObj exp) ].
Proof.
  intros Hb.
  destruct (builder_normal_inv _ _ _ _ _ Hb)
    as (platform & config & main & exp & rv & assets & Hup & Ha & -> & _).
  destruct Hup as (Hp & Hc & (entry & He & Hs) & Hx & _).
  split; [reflexivity|]. split; [reflexivity|].
  exists platform, config, entry, main, exp, assets.
  repeat split; assumption.
Qed.

Lemma document_shape_witness :
  exists body hs,
    getManifestResponseAsync Sample.env "/app" Sample.ios_request
      = Normal (body, hs) /\
    js_get body "metadata" = JObj [].
Proof.
  destruct (getManifestResponseAsync Sample.env "/app" Sample.ios_request)
    as [[body hs]|e] eqn:Hb; [|vm_compute in Hb; discriminate].
  exists body, hs. split; [reflexivity|].
  destruct (document_shape Sample.env "/app" Sample.ios_request body hs Hb)
    as (_ & H & _).
  exact H.
Defined.


